(** * BookMyBook: checkout workflow and conversation aggregator

    A shallow embedding of the two server-side workflows of the
    marketplace:

    - [app/actions/stripe.ts]: [createCheckoutSession] and
      [completeCheckout];
    - the messages route handler ([GET] and [POST]);
    - the handlers of the checkout page and of the cart page, and the
      figures of the buyer dashboard.

    The relational store is a record of tables (lists of rows), the
    payment provider a list of sessions.  Every call to one of the two
    collaborators is a primitive of a small state-and-exception monad; a
    thrown exception keeps the writes made before it, as the code has no
    transaction.  How the collaborators answer during one request (who
    the caller is, which calls come back with an [error], which values
    the store and the provider generate, which profile rows the caller
    may see, how the store reads a filter text that carries syntax of
    its own) is collected in a context record.  The row-level policies
    on the other tables are the store's own business and are not part of
    the model. *)

From Stdlib Require Import List String Ascii Bool ZArith QArith Qround Lia.
From Stdlib Require Import Sorting.Sorted Sorting.Permutation.
Import ListNotations.

Local Open Scope string_scope.
Local Open Scope list_scope.

(** ** Rows of the relational store *)

Definition uuid := string.

Module Profile.
Record t := mk
  { id : uuid; full_name : option string; avatar_url : option string }.
End Profile.

Module Book.
Record t := mk { id : uuid; title : string }.
End Book.

Module Listing.
(** [price] is a JavaScript number read from a DECIMAL(10,2) column;
    it is kept as an exact rational. *)
Record t := mk
  { id : uuid; seller_id : uuid; book_id : uuid; price : Q; status : string }.
End Listing.

Module CartRow.
Record t := mk
  { id : uuid; buyer_id : uuid; listing_id : uuid; quantity : Z }.
End CartRow.

Module Order.
(** The columns the checkout action writes; the generated ones ([id],
    timestamps) are never read back and are left out. *)
Record t := mk
  { buyer_id : uuid; seller_id : uuid; listing_id : uuid;
    total_amount : Q; status : string; payment_id : option string }.
End Order.

Module Message.
Record t := mk
  { id : uuid; sender_id : uuid; receiver_id : uuid; content : string;
    listing_id : option uuid; read : bool; created_at : Z }.
End Message.

Record Database := mkDatabase
  { profiles : list Profile.t;
    books : list Book.t;
    listings : list Listing.t;
    cart_items : list CartRow.t;
    orders : list Order.t;
    messages : list Message.t }.

(** The row shape of [interface CartItem]: a cart row with its embedded
    [listings(...)] resource, itself embedding [books(...)].  An embedded
    resource is [null] when the referenced row is absent. *)
Module CartItem.
Record listings_t := mkListings
  { price : Q; seller_id : uuid; books : option Book.t }.
Record t := mk
  { id : uuid; listing_id : uuid; listings : option listings_t }.
End CartItem.

(** ** The payment provider *)

Module LineItem.
Record t := mk
  { currency : string; name : string; description : string;
    unit_amount : Z; quantity : Z }.
End LineItem.

Module Session.
Record t := mk
  { id : string; client_secret : string;
    ui_mode : string; redirect_on_completion : string; mode : string;
    line_items : list LineItem.t;
    metadata : option (list (string * string));
    payment_status : string; payment_intent : option string }.
End Session.

Record World := mkWorld { db : Database; stripe : list Session.t }.

(** ** Exceptions and the request context *)

Inductive Exn :=
| Error (message : string)      (* [throw new Error(message)] *)
| PostgrestError                (* an [error] object returned by the store *)
| StripeError                   (* the provider call rejected *)
| TypeError.                    (* property read on [null] *)

(** The error names of the specification, as the exceptions the code
    throws. *)
Definition UnauthenticatedError := Error "User not authenticated".
Definition NotFoundError := Error "Cart items not found".
Definition PaymentNotCompletedError := Error "Payment not completed".
Definition StoreWriteError := PostgrestError.

Record Ctx := mkCtx
  { auth_user : option uuid;               (* [supabase.auth.getUser()] *)
    cart_select_error : bool;
    cart_update_error : bool;
    cart_delete_error : bool;
    order_insert_error : Order.t -> bool;
    listing_update_error : uuid -> bool;
    messages_select_error : bool;
    messages_update_error : bool;
    message_insert_error : bool;
    profiles_select_error : bool;
    stripe_create_error : bool;
    stripe_session_id : string;            (* generated by the provider *)
    stripe_client_secret : string;
    message_id : uuid;                     (* [gen_random_uuid()] *)
    now : Z;                               (* [CURRENT_TIMESTAMP] *)
    profile_visible : Profile.t -> bool;   (* row-level security on [profiles] *)
    messages_or : string -> Message.t -> bool }.
                                           (* the store's reading of an [or] filter text *)

Inductive Outcome (A : Type) :=
| Returned (a : A)
| Threw (e : Exn).
Arguments Returned {A} a.
Arguments Threw {A} e.

Definition Action (A : Type) := World -> Outcome A * World.

Definition ret {A} (a : A) : Action A := fun w => (Returned a, w).

Definition throw {A} (e : Exn) : Action A := fun w => (Threw e, w).

Definition bind {A B} (m : Action A) (k : A -> Action B) : Action B :=
  fun w =>
    match m w with
    | (Returned a, w') => k a w'
    | (Threw e, w') => (Threw e, w')
    end.

Declare Scope action_scope.
Delimit Scope action_scope with action.
Notation "x <- m ;; k" := (bind m (fun x => k))
  (at level 61, m at next level, right associativity) : action_scope.
Notation "m ;; k" := (bind m (fun _ => k))
  (at level 61, right associativity) : action_scope.
Local Open Scope action_scope.

(** [for (const x of xs) body] *)
Fixpoint for_of {A} (xs : list A) (body : A -> Action unit) : Action unit :=
  match xs with
  | [] => ret tt
  | x :: xs' => body x ;; for_of xs' body
  end.

(** ** JavaScript helpers *)

(** [s.split(",")] *)
Fixpoint split_comma (s : string) : list string :=
  match s with
  | EmptyString => [""]
  | String c rest =>
      let parts := split_comma rest in
      if Ascii.eqb c "," then "" :: parts
      else match parts with
           | p :: ps => String c p :: ps
           | [] => [String c ""]
           end
  end.

(** [xs.join(",")] *)
Definition join_comma (xs : list string) : string := String.concat "," xs.

(** [Math.round]: the nearest integer, halves towards plus infinity. *)
Definition Math_round (x : Q) : Z := Qfloor (x + (1 # 2)).

(** Truthiness of an optional string: [undefined], [null] and [""] are
    falsy. *)
Definition truthy (s : option string) : bool :=
  match s with
  | Some v => negb (v =? "")
  | None => false
  end.

Definition mem (x : string) (xs : list string) : bool :=
  existsb (String.eqb x) xs.

Fixpoint assoc {V} (k : string) (kvs : list (string * V)) : option V :=
  match kvs with
  | [] => None
  | (k', v) :: rest => if k' =? k then Some v else assoc k rest
  end.

(** A text of letters, digits, hyphens and underscores: it holds none of
    the characters a PostgREST filter reads as syntax (comma, dot, colon,
    parentheses, quotes). *)
Definition word_char (c : ascii) : bool :=
  let n := nat_of_ascii c in
  ((48 <=? n) && (n <=? 57) || (97 <=? n) && (n <=? 122)
   || (65 <=? n) && (n <=? 90) || (n =? 45) || (n =? 95))%nat.

Fixpoint plain_text (s : string) : bool :=
  match s with
  | EmptyString => true
  | String c rest => word_char c && plain_text rest
  end.

(** The text of a [uuid] column value: hexadecimal digits and hyphens.
    Such a text is no property name of [Object.prototype] or of a profile
    row. *)
Definition hex_or_hyphen (c : ascii) : bool :=
  let n := nat_of_ascii c in
  ((48 <=? n) && (n <=? 57) || (97 <=? n) && (n <=? 102)
   || (65 <=? n) && (n <=? 70) || (n =? 45))%nat.

Fixpoint uuid_text (s : string) : bool :=
  match s with
  | EmptyString => true
  | String c rest => hex_or_hyphen c && uuid_text rest
  end.

(** ** Store primitives

    A supabase call never throws: it resolves to [{ data, error }].  A
    call that comes back with an [error] leaves the table as it was. *)

Record Result (A : Type) := mkResult
  { data : option A; error : option Exn }.
Arguments mkResult {A} data error.
Arguments data {A} r.
Arguments error {A} r.

Definition set_orders (d : Database) (os : list Order.t) : Database :=
  mkDatabase (profiles d) (books d) (listings d) (cart_items d) os (messages d).

Definition set_listings (d : Database) (ls : list Listing.t) : Database :=
  mkDatabase (profiles d) (books d) ls (cart_items d) (orders d) (messages d).

Definition set_cart_items (d : Database) (cs : list CartRow.t) : Database :=
  mkDatabase (profiles d) (books d) (listings d) cs (orders d) (messages d).

Definition set_messages (d : Database) (ms : list Message.t) : Database :=
  mkDatabase (profiles d) (books d) (listings d) (cart_items d) (orders d) ms.

Definition find_listing (d : Database) (lid : uuid) : option Listing.t :=
  find (fun l => Listing.id l =? lid) (listings d).

Definition find_book (d : Database) (bid : uuid) : option Book.t :=
  find (fun b => Book.id b =? bid) (books d).

(** The embedded resource [listings(price, seller_id, books(title))] of
    one cart row. *)
Definition embed_listing (d : Database) (c : CartRow.t) : CartItem.t :=
  CartItem.mk (CartRow.id c) (CartRow.listing_id c)
    (match find_listing d (CartRow.listing_id c) with
     | Some l =>
         Some (CartItem.mkListings (Listing.price l) (Listing.seller_id l)
                 (find_book d (Listing.book_id l)))
     | None => None
     end).

(** The cart rows selected by [.in("id", ids).eq("buyer_id", uid)]. *)
Definition cart_rows_of (ids : list uuid) (uid : uuid) (d : Database)
  : list CartRow.t :=
  filter (fun c => mem (CartRow.id c) ids && (CartRow.buyer_id c =? uid))
    (cart_items d).

(** [from("cart_items").select("id, listing_id, listings(...)")
      .in("id", ids).eq("buyer_id", uid)] *)
Definition select_cart_items (ctx : Ctx) (ids : list uuid) (uid : uuid)
  : Action (Result (list CartItem.t)) :=
  fun w =>
    if cart_select_error ctx then (Returned (mkResult None (Some PostgrestError)), w)
    else (Returned (mkResult (Some (map (embed_listing (db w)) (cart_rows_of ids uid (db w)))) None), w).

(** [from("orders").insert(row)] *)
Definition insert_order (ctx : Ctx) (row : Order.t) : Action (Result unit) :=
  fun w =>
    if order_insert_error ctx row then (Returned (mkResult None (Some PostgrestError)), w)
    else (Returned (mkResult None None),
          mkWorld (set_orders (db w) (orders (db w) ++ [row])) (stripe w)).

Definition with_status (st : string) (l : Listing.t) : Listing.t :=
  Listing.mk (Listing.id l) (Listing.seller_id l) (Listing.book_id l)
    (Listing.price l) st.

(** [from("listings").update({ status }).eq("id", lid)] *)
Definition update_listing_status (ctx : Ctx) (st : string) (lid : uuid)
  : Action (Result unit) :=
  fun w =>
    if listing_update_error ctx lid then (Returned (mkResult None (Some PostgrestError)), w)
    else (Returned (mkResult None None),
          mkWorld (set_listings (db w)
                     (map (fun l => if Listing.id l =? lid then with_status st l else l)
                        (listings (db w))))
            (stripe w)).

(** [from("cart_items").delete().in("id", ids)] *)
Definition delete_cart_items (ctx : Ctx) (ids : list uuid) : Action (Result unit) :=
  fun w =>
    if cart_delete_error ctx then (Returned (mkResult None (Some PostgrestError)), w)
    else (Returned (mkResult None None),
          mkWorld (set_cart_items (db w)
                     (filter (fun c => negb (mem (CartRow.id c) ids)) (cart_items (db w))))
            (stripe w)).

Definition with_quantity (q : Z) (c : CartRow.t) : CartRow.t :=
  CartRow.mk (CartRow.id c) (CartRow.buyer_id c) (CartRow.listing_id c) q.

(** [from("cart_items").update({ quantity }).eq("id", cid)] *)
Definition update_cart_quantity (ctx : Ctx) (q : Z) (cid : uuid)
  : Action (Result unit) :=
  fun w =>
    if cart_update_error ctx then (Returned (mkResult None (Some PostgrestError)), w)
    else (Returned (mkResult None None),
          mkWorld (set_cart_items (db w)
                     (map (fun c => if CartRow.id c =? cid then with_quantity q c else c)
                        (cart_items (db w))))
            (stripe w)).

(** ** Provider primitives *)

(** [stripe.checkout.sessions.create(params)]: rejects, or stores a new
    unpaid session. *)
Definition stripe_sessions_create (ctx : Ctx) (items : list LineItem.t)
    (md : list (string * string)) : Action Session.t :=
  fun w =>
    if stripe_create_error ctx then (Threw StripeError, w)
    else
      let s := Session.mk (stripe_session_id ctx) (stripe_client_secret ctx)
                 "embedded" "never" "payment" items (Some md) "unpaid" None in
      (Returned s, mkWorld (db w) (stripe w ++ [s])).

Definition session_of (sessionId : string) (w : World) : option Session.t :=
  find (fun s => Session.id s =? sessionId) (stripe w).

(** [stripe.checkout.sessions.retrieve(id)]: rejects when the provider
    has no such session. *)
Definition stripe_sessions_retrieve (sessionId : string) : Action Session.t :=
  fun w =>
    match session_of sessionId w with
    | Some s => (Returned s, w)
    | None => (Threw StripeError, w)
    end.

(** ** app/actions/stripe.ts *)

Definition getUser (ctx : Ctx) : Action (option uuid) := ret (auth_user ctx).

(** [cartItems.map(item => ({ price_data: ..., quantity: 1 }))]; reading
    through a [null] embedded resource throws. *)
Fixpoint lineItems_of (cartItems : list CartItem.t)
  : Outcome (list LineItem.t) :=
  match cartItems with
  | [] => Returned []
  | item :: rest =>
      match CartItem.listings item with
      | None => Threw TypeError
      | Some l =>
          match CartItem.books l with
          | None => Threw TypeError
          | Some b =>
              match lineItems_of rest with
              | Returned lis =>
                  Returned
                    (LineItem.mk "inr" (Book.title b) "Book listing from BookMyBook"
                       (Math_round (CartItem.price l * 100)) 1
                     :: lis)
              | Threw e => Threw e
              end
          end
      end
  end.

Definition createCheckoutSession (ctx : Ctx) (cartItemIds : list uuid)
  : Action string :=
  user <- getUser ctx ;;
  match user with
  | None => throw (Error "User not authenticated")
  | Some uid =>
      r <- select_cart_items ctx cartItemIds uid ;;
      match error r, data r with
      | None, Some (item :: items) =>
          let cartItems := item :: items in
          match lineItems_of cartItems with
          | Threw e => throw e
          | Returned lineItems =>
              session <- stripe_sessions_create ctx lineItems
                           [("buyer_id", uid);
                            ("cart_item_ids", join_comma cartItemIds)] ;;
              ret (Session.client_secret session)
          end
      | _, _ => throw (Error "Cart items not found")
      end
  end.

(** [session.metadata?.cart_item_ids?.split(",") || []] *)
Definition metadata_cart_item_ids (session : Session.t) : list uuid :=
  match Session.metadata session with
  | None => []
  | Some md =>
      match assoc "cart_item_ids" md with
      | None => []
      | Some ids => split_comma ids
      end
  end.

Record Success := mkSuccess { success : bool }.

(** The row inserted for one cart item. *)
Definition order_row (uid : uuid) (session : Session.t)
    (item : CartItem.t) (l : CartItem.listings_t) : Order.t :=
  Order.mk uid (CartItem.seller_id l) (CartItem.listing_id item)
    (CartItem.price l) "completed" (Session.payment_intent session).

(** The body of the loop over the cart items. *)
Definition completeCheckout_item (ctx : Ctx) (uid : uuid) (session : Session.t)
    (item : CartItem.t) : Action unit :=
  match CartItem.listings item with
  | None => throw TypeError
  | Some l =>
      r <- insert_order ctx (order_row uid session item l) ;;
      match error r with
      | Some orderError => throw orderError
      | None =>
          (* the result of the update is dropped *)
          update_listing_status ctx "sold" (CartItem.listing_id item) ;;
          ret tt
      end
  end.

Definition completeCheckout (ctx : Ctx) (sessionId : string) : Action Success :=
  user <- getUser ctx ;;
  match user with
  | None => throw (Error "User not authenticated")
  | Some uid =>
      session <- stripe_sessions_retrieve sessionId ;;
      if negb (Session.payment_status session =? "paid")
      then throw (Error "Payment not completed")
      else
        let cartItemIds := metadata_cart_item_ids session in
        r <- select_cart_items ctx cartItemIds uid ;;
        match error r, data r with
        | None, Some cartItems =>
            for_of cartItems (completeCheckout_item ctx uid session) ;;
            d <- delete_cart_items ctx cartItemIds ;;
            match error d with
            | Some deleteError => throw deleteError
            | None => ret (mkSuccess true)
            end
        | _, _ => throw (Error "Failed to fetch cart items")
        end
  end.

(** ** The cart page: [handleUpdateQuantity]

    Only the store effect is modelled; the [error] is thrown and caught
    in place, where it is logged. *)
Definition handleUpdateQuantity (ctx : Ctx) (cartItemId : uuid) (newQuantity : Z)
  : Action unit :=
  if (newQuantity <? 1)%Z then ret tt
  else
    update_cart_quantity ctx newQuantity cartItemId ;;
    ret tt.

(** ** The messages route *)

(** A JavaScript [Map]: keys in insertion order; [set] on a present key
    keeps its position. *)
Module JsMap.
Definition t (V : Type) := list (string * V).

Definition has {V} (k : string) (m : t V) : bool :=
  existsb (fun kv => fst kv =? k) m.

Definition get {V} (k : string) (m : t V) : option V := assoc k m.

Fixpoint set {V} (k : string) (v : V) (m : t V) : t V :=
  match m with
  | [] => [(k, v)]
  | (k', v') :: rest =>
      if k' =? k then (k', v) :: rest else (k', v') :: set k v rest
  end.

Definition keys {V} (m : t V) : list string := map fst m.

Definition entries {V} (m : t V) : list (string * V) := m.
End JsMap.

Module Conversation.
Record t := mk
  { userId : uuid; profile : option Profile.t;
    lastMessage : option Message.t; unreadCount : nat }.
End Conversation.

Inductive Json :=
| JsonError (error : string)
| JsonConversations (l : list Conversation.t)
| JsonMessages (l : list Message.t)
| JsonMessage (m : Message.t).

Record NextResponse := mkResponse { body : Json; status : nat }.

(** [.order("created_at", { ascending })]: the rows sorted on
    [created_at]. *)
Definition created_before (ascending : bool) (a b : Message.t) : bool :=
  if ascending then (Message.created_at a <=? Message.created_at b)%Z
  else (Message.created_at b <=? Message.created_at a)%Z.

Fixpoint insert_sorted (ascending : bool) (m : Message.t) (l : list Message.t)
  : list Message.t :=
  match l with
  | [] => [m]
  | x :: xs =>
      if created_before ascending m x then m :: l
      else x :: insert_sorted ascending m xs
  end.

Definition order_created_at (ascending : bool) (l : list Message.t)
  : list Message.t :=
  fold_right (insert_sorted ascending) [] l.

(** [.or(`sender_id.eq.${uid},receiver_id.eq.${uid}`)] *)
Definition involves (uid : uuid) (m : Message.t) : bool :=
  (Message.sender_id m =? uid) || (Message.receiver_id m =? uid).

(** [.or(`and(sender_id.eq.${uid},receiver_id.eq.${other}),
         and(sender_id.eq.${other},receiver_id.eq.${uid})`)] *)
Definition between (uid other : uuid) (m : Message.t) : bool :=
  (Message.sender_id m =? uid) && (Message.receiver_id m =? other)
  || (Message.sender_id m =? other) && (Message.receiver_id m =? uid).

(** The text handed to [.or(...)] for the thread with [other]. *)
Definition thread_or (uid other : string) : string :=
  String.append "and(sender_id.eq."
    (String.append uid
       (String.append ",receiver_id.eq."
          (String.append other
             (String.append "),and(sender_id.eq."
                (String.append other
                   (String.append ",receiver_id.eq."
                      (String.append uid ")"))))))).

(** The rows the store selects for the thread.  [user.id] is the id the
    auth service gives; [other] is the text of the request, pasted into
    the filter as it comes.  When it holds no filter syntax the filter
    reads as [between]; any other text may add conditions of its own, and
    the rows are the ones the store reads from the whole text. *)
Definition thread_rows (ctx : Ctx) (uid other : string) : Message.t -> bool :=
  if plain_text other then between uid other
  else messages_or ctx (thread_or uid other).

Definition select_messages (ctx : Ctx) (p : Message.t -> bool) (ascending : bool)
  : Action (Result (list Message.t)) :=
  fun w =>
    if messages_select_error ctx then (Returned (mkResult None (Some PostgrestError)), w)
    else (Returned (mkResult (Some (order_created_at ascending (filter p (messages (db w))))) None), w).

(** [from("profiles").select("id, full_name, avatar_url").in("id", ids)]:
    the listed rows among those the row-level security of the table lets
    the caller see; a hidden row is left out without an [error]. *)
Definition select_profiles (ctx : Ctx) (ids : list uuid)
  : Action (Result (list Profile.t)) :=
  fun w =>
    if profiles_select_error ctx then (Returned (mkResult None (Some PostgrestError)), w)
    else (Returned
            (mkResult
               (Some (filter (fun p => profile_visible ctx p && mem (Profile.id p) ids)
                        (profiles (db w))))
               None),
          w).

Definition mark_read (m : Message.t) : Message.t :=
  Message.mk (Message.id m) (Message.sender_id m) (Message.receiver_id m)
    (Message.content m) (Message.listing_id m) true (Message.created_at m).

(** [from("messages").update({ read: true })
      .eq("receiver_id", uid).eq("sender_id", other)] *)
Definition update_messages_read (ctx : Ctx) (uid other : uuid)
  : Action (Result unit) :=
  fun w =>
    if messages_update_error ctx then (Returned (mkResult None (Some PostgrestError)), w)
    else (Returned (mkResult None None),
          mkWorld (set_messages (db w)
                     (map (fun m =>
                             if (Message.receiver_id m =? uid) && (Message.sender_id m =? other)
                             then mark_read m else m)
                        (messages (db w))))
            (stripe w)).

(** [from("messages").insert(row).select().single()]: the stored row,
    with the generated [id] and [created_at]. *)
Definition insert_message (ctx : Ctx) (sender receiver content : string)
    (listing : option uuid) (rd : bool) : Action (Result Message.t) :=
  fun w =>
    if message_insert_error ctx then (Returned (mkResult None (Some PostgrestError)), w)
    else
      let row := Message.mk (message_id ctx) sender receiver content listing rd (now ctx) in
      (Returned (mkResult (Some row) None),
       mkWorld (set_messages (db w) (messages (db w) ++ [row])) (stripe w)).

Definition otherUser (uid : uuid) (msg : Message.t) : uuid :=
  if Message.sender_id msg =? uid then Message.receiver_id msg
  else Message.sender_id msg.

(** The callback of [data.forEach]; [push] mutates the array held by the
    map, which is a [set] at the key's position. *)
Definition group_message (uid : uuid) (conversations : JsMap.t (list Message.t))
    (msg : Message.t) : JsMap.t (list Message.t) :=
  let other := otherUser uid msg in
  let conversations :=
    if negb (JsMap.has other conversations)
    then JsMap.set other [] conversations
    else conversations in
  match JsMap.get other conversations with
  | Some arr => JsMap.set other (arr ++ [msg]) conversations
  | None => conversations
  end.

Definition group_messages (uid : uuid) (rows : list Message.t)
  : JsMap.t (list Message.t) :=
  fold_left (group_message uid) rows [].

(** [profiles?.reduce((acc, profile) => { acc[profile.id] = profile; return acc }, {})]:
    the own properties of the object, for keys that are the text of a
    [uuid] column value. *)
Definition profileMap_of (profiles : option (list Profile.t))
  : option (JsMap.t Profile.t) :=
  match profiles with
  | None => None
  | Some ps => Some (fold_left (fun acc p => JsMap.set (Profile.id p) p acc) ps [])
  end.

Definition unread_for (uid : uuid) (m : Message.t) : bool :=
  (Message.receiver_id m =? uid) && negb (Message.read m).

Definition conversation_of (uid : uuid) (profileMap : option (JsMap.t Profile.t))
    (entry : string * list Message.t) : Conversation.t :=
  let (userId, msgs) := entry in
  Conversation.mk userId
    (match profileMap with Some pm => JsMap.get userId pm | None => None end)
    (hd_error msgs)
    (List.length (filter (unread_for uid) msgs)).

(** The string held by a truthy optional string. *)
Definition str_of (s : option string) : string :=
  match s with Some v => v | None => "" end.

(** The body of the [try] block of [GET]. *)
Definition GET_try (ctx : Ctx) (otherUserId : option string) : Action NextResponse :=
  user <- getUser ctx ;;
  match user with
  | None => ret (mkResponse (JsonError "Unauthorized") 401)
  | Some uid =>
      if negb (truthy otherUserId) then
        r <- select_messages ctx (involves uid) false ;;
        match error r, data r with
        | Some e, _ => throw e
        | None, None => throw TypeError
        | None, Some rows =>
            let conversations := group_messages uid rows in
            let userIds := JsMap.keys conversations in
            p <- select_profiles ctx userIds ;;
            let profileMap := profileMap_of (data p) in
            ret (mkResponse
                   (JsonConversations
                      (map (conversation_of uid profileMap) (JsMap.entries conversations)))
                   200)
        end
      else
        let other := str_of otherUserId in
        r <- select_messages ctx (thread_rows ctx uid other) true ;;
        match error r, data r with
        | Some e, _ => throw e
        | None, None => throw TypeError
        | None, Some rows =>
            (* the result of the update is dropped *)
            update_messages_read ctx uid other ;;
            ret (mkResponse (JsonMessages rows) 200)
        end
  end.

(** [try { ... } catch (error) { return 500 }] *)
Definition catch500 (msg : string) (a : Action NextResponse) : World -> NextResponse * World :=
  fun w =>
    match a w with
    | (Returned r, w') => (r, w')
    | (Threw _, w') => (mkResponse (JsonError msg) 500, w')
    end.

Definition GET (ctx : Ctx) (otherUserId : option string) : World -> NextResponse * World :=
  catch500 "Failed to fetch messages" (GET_try ctx otherUserId).

(** The body of a [POST] request after [request.json()]. *)
Record PostBody := mkPostBody
  { receiverId : option string; content : option string; listingId : option string }.

Definition POST_try (ctx : Ctx) (req : PostBody) : Action NextResponse :=
  user <- getUser ctx ;;
  match user with
  | None => ret (mkResponse (JsonError "Unauthorized") 401)
  | Some uid =>
      if negb (truthy (receiverId req)) || negb (truthy (content req))
      then ret (mkResponse (JsonError "Missing required fields") 400)
      else
        ins <- insert_message ctx uid (str_of (receiverId req)) (str_of (content req))
                 (if truthy (listingId req) then listingId req else None) false ;;
        match error ins, data ins with
        | Some e, _ => throw e
        | None, Some row => ret (mkResponse (JsonMessage row) 200)
        | None, None => throw TypeError
        end
  end.

Definition POST (ctx : Ctx) (req : PostBody) : World -> NextResponse * World :=
  catch500 "Failed to send message" (POST_try ctx req).

(** * The vocabulary of the properties *)

(** ** Checkout *)

(** The order row the action writes for a cart row whose listing is [l]. *)
Definition order_for (uid : uuid) (session : Session.t) (c : CartRow.t)
    (l : Listing.t) : Order.t :=
  Order.mk uid (Listing.seller_id l) (CartRow.listing_id c) (Listing.price l)
    "completed" (Session.payment_intent session).

(** The listings table after the status updates for the ids in [lids]. *)
Definition sell (lids : list uuid) (ls : list Listing.t) : list Listing.t :=
  map (fun l => if mem (Listing.id l) lids then with_status "sold" l else l) ls.

(** The ids whose status update the store applies. *)
Definition applied (ctx : Ctx) (lids : list uuid) : list uuid :=
  filter (fun lid => negb (listing_update_error ctx lid)) lids.

Definition order_eqb (a b : Order.t) : bool :=
  (Order.buyer_id a =? Order.buyer_id b)
  && (Order.seller_id a =? Order.seller_id b)
  && (Order.listing_id a =? Order.listing_id b)
  && Qeq_bool (Order.total_amount a) (Order.total_amount b)
  && (Order.status a =? Order.status b)
  && match Order.payment_id a, Order.payment_id b with
     | Some x, Some y => x =? y
     | None, None => true
     | _, _ => false
     end.

(** The number of stored order rows carrying the column values of [o]. *)
Definition order_rows_like (o : Order.t) (d : Database) : nat :=
  List.length (filter (order_eqb o) (orders d)).

(** Two worlds that differ at most in their listings table. *)
Definition same_but_listings (w1 w2 : World) : Prop :=
  stripe w1 = stripe w2 /\
  profiles (db w1) = profiles (db w2) /\
  books (db w1) = books (db w2) /\
  cart_items (db w1) = cart_items (db w2) /\
  orders (db w1) = orders (db w2) /\
  messages (db w1) = messages (db w2).

(** The line item built for a listing and its book. *)
Definition line_item_for (l : Listing.t) (b : Book.t) : LineItem.t :=
  LineItem.mk "inr" (Book.title b) "Book listing from BookMyBook"
    (Math_round (Listing.price l * 100)) 1.

(** What the provider charges for a list of line items. *)
Definition total_minor_units (items : list LineItem.t) : Z :=
  fold_right (fun li acc => (LineItem.unit_amount li * LineItem.quantity li + acc)%Z)
    0%Z items.

Definition sum_Z (xs : list Z) : Z := fold_right Z.add 0%Z xs.

(** The store with the quantities of the cart rows replaced. *)
Definition requantify (f : CartRow.t -> Z) (w : World) : World :=
  mkWorld
    (set_cart_items (db w) (map (fun c => with_quantity (f c) c) (cart_items (db w))))
    (stripe w).

(** The provider's side of a payment: the session is marked paid and
    given its payment reference. *)
Definition provider_reports_paid (sessionId reference : string) (w : World) : World :=
  mkWorld (db w)
    (map (fun s =>
            if Session.id s =? sessionId
            then Session.mk (Session.id s) (Session.client_secret s) (Session.ui_mode s)
                   (Session.redirect_on_completion s) (Session.mode s)
                   (Session.line_items s) (Session.metadata s) "paid" (Some reference)
            else s)
       (stripe w)).

(** Contexts in which some store writes come back with an [error]. *)
Definition failing_order_insert (p : Order.t -> bool) (c : Ctx) : Ctx :=
  mkCtx (auth_user c) (cart_select_error c) (cart_update_error c)
    (cart_delete_error c) p (listing_update_error c)
    (messages_select_error c) (messages_update_error c) (message_insert_error c)
    (profiles_select_error c) (stripe_create_error c) (stripe_session_id c)
    (stripe_client_secret c) (message_id c) (now c)
    (profile_visible c) (messages_or c).

Definition failing_listing_update (p : uuid -> bool) (c : Ctx) : Ctx :=
  mkCtx (auth_user c) (cart_select_error c) (cart_update_error c)
    (cart_delete_error c) (order_insert_error c) p
    (messages_select_error c) (messages_update_error c) (message_insert_error c)
    (profiles_select_error c) (stripe_create_error c) (stripe_session_id c)
    (stripe_client_secret c) (message_id c) (now c)
    (profile_visible c) (messages_or c).

(** A context in which the update of [messages] comes back with an
    [error]. *)
Definition failing_messages_update (c : Ctx) : Ctx :=
  mkCtx (auth_user c) (cart_select_error c) (cart_update_error c)
    (cart_delete_error c) (order_insert_error c) (listing_update_error c)
    (messages_select_error c) true (message_insert_error c)
    (profiles_select_error c) (stripe_create_error c) (stripe_session_id c)
    (stripe_client_secret c) (message_id c) (now c)
    (profile_visible c) (messages_or c).

(** The policy the scripts of the repository give the [profiles] table,
    [CREATE POLICY "profiles_select_own" ON public.profiles
       FOR SELECT USING (auth.uid() = id)]. *)
Definition own_profile (user : option uuid) (p : Profile.t) : bool :=
  match user with
  | Some uid => Profile.id p =? uid
  | None => false
  end.

Definition profiles_select_own (c : Ctx) : Ctx :=
  mkCtx (auth_user c) (cart_select_error c) (cart_update_error c)
    (cart_delete_error c) (order_insert_error c) (listing_update_error c)
    (messages_select_error c) (messages_update_error c) (message_insert_error c)
    (profiles_select_error c) (stripe_create_error c) (stripe_session_id c)
    (stripe_client_secret c) (message_id c) (now c)
    (own_profile (auth_user c)) (messages_or c).

(** ** Messages *)

(** [a] may stand before [b] in rows ordered on [created_at]. *)
Definition precedes (ascending : bool) (a b : Message.t) : Prop :=
  created_before ascending a b = true.

Definition newest_first := precedes false.

(** The rows [GET] reads for the conversation list. *)
Definition newest_rows (uid : uuid) (w : World) : list Message.t :=
  order_created_at false (filter (involves uid) (messages (db w))).

(** The grouping by counterpart as the specification describes it: the
    counterparts in the order in which they are first seen, each with the
    rows exchanged with it, in the order of the rows. *)
Definition with_user (uid k : uuid) (m : Message.t) : bool := otherUser uid m =? k.

Definition first_seen (uid : uuid) (rows : list Message.t) : list uuid :=
  fold_left
    (fun ks m => if mem (otherUser uid m) ks then ks else ks ++ [otherUser uid m])
    rows [].

Definition keyed {V} (f : string -> V) (ks : list string) : JsMap.t V :=
  map (fun k => (k, f k)) ks.

Definition grouped (uid : uuid) (rows : list Message.t) : JsMap.t (list Message.t) :=
  keyed (fun k => filter (with_user uid k) rows) (first_seen uid rows).

Definition head_time (uid : uuid) (rows : list Message.t) (k : uuid) : Z :=
  match hd_error (filter (with_user uid k) rows) with
  | Some m => Message.created_at m
  | None => 0%Z
  end.

Definition last_created_at (c : Conversation.t) : Z :=
  match Conversation.lastMessage c with
  | Some m => Message.created_at m
  | None => 0%Z
  end.

(** [c1] may stand before [c2] in a list ordered on the last message's
    [created_at], descending. *)
Definition last_message_desc (c1 c2 : Conversation.t) : Prop :=
  (last_created_at c2 <= last_created_at c1)%Z.

(** The messages that count as unread for the caller in the conversation
    with [X]: sent by [X], received by the caller, not read. *)
Definition unread_from (uid X : uuid) (m : Message.t) : bool :=
  (Message.sender_id m =? X) && (Message.receiver_id m =? uid)
  && negb (Message.read m).

(** ** Running examples *)

(** A context in which every call of a collaborator succeeds. *)
Definition healthy (user : option uuid) : Ctx :=
  mkCtx user false false false (fun _ => false) (fun _ => false)
    false false false false false "cs_1" "cs_1_secret" "m_new" 100
    (fun _ => true) (fun _ _ => false).

(** The checkout scenario of the specification: listings of 199 and 350
    in the buyer's cart. *)
Definition db0 : Database :=
  mkDatabase
    [Profile.mk "buyer" (Some "Bo") None; Profile.mk "seller" (Some "Sam") None]
    [Book.mk "B1" "Dune"; Book.mk "B2" "Emma"]
    [Listing.mk "L1" "seller" "B1" 199 "available";
     Listing.mk "L2" "seller" "B2" 350 "available"]
    [CartRow.mk "c1" "buyer" "L1" 1; CartRow.mk "c2" "buyer" "L2" 3]
    []
    [].

Definition w0 : World := mkWorld db0 [].

(** The session [createCheckoutSession] creates for both cart items. *)
Definition session_1 : Session.t :=
  Session.mk "cs_1" "cs_1_secret" "embedded" "never" "payment"
    [LineItem.mk "inr" "Dune" "Book listing from BookMyBook" 19900 1;
     LineItem.mk "inr" "Emma" "Book listing from BookMyBook" 35000 1]
    (Some [("buyer_id", "buyer"); ("cart_item_ids", "c1,c2")]) "unpaid" None.

(** The buyer begins the checkout of both cart items; the provider
    reports the payment with the reference "pay_1"; the buyer completes
    the checkout. *)
Definition w_unpaid : World :=
  snd (createCheckoutSession (healthy (Some "buyer")) ["c1"; "c2"] w0).

Definition w_paid : World := provider_reports_paid "cs_1" "pay_1" w_unpaid.

Definition w_done : World :=
  snd (completeCheckout (healthy (Some "buyer")) "cs_1" w_paid).

(** A first attempt in which the insert of the second order comes back
    with an [error], and the retry. *)
Definition ctx_insert_L2_fails : Ctx :=
  failing_order_insert (fun o => Order.listing_id o =? "L2") (healthy (Some "buyer")).

Definition w_failed : World := snd (completeCheckout ctx_insert_L2_fails "cs_1" w_paid).

Definition w_retried : World :=
  snd (completeCheckout (healthy (Some "buyer")) "cs_1" w_failed).

(** An attempt in which every listing update comes back with an
    [error]. *)
Definition ctx_listing_update_fails : Ctx :=
  failing_listing_update (fun _ => true) (healthy (Some "buyer")).

(** A store with two conversations of the caller "me": with "A", whose
    latest message is at time 30, and with "B", whose only message is at
    time 10. *)
Definition db_chat : Database :=
  mkDatabase
    [Profile.mk "A" (Some "Ann") None; Profile.mk "B" (Some "Bob") None]
    [] [] [] []
    [Message.mk "m1" "B" "me" "hello" None false 10;
     Message.mk "m2" "me" "A" "hi" None false 20;
     Message.mk "m3" "A" "me" "yes" None false 30].

Definition w_chat : World := mkWorld db_chat [].

(** * The callers of the actions

    The pages keep their React state in a record; a handler takes the
    state and the world and gives both back.  [alert] and [router.push]
    are logged in the state. *)

(** [from("cart_items").select("id, listing_id, listings(...)")
      .eq("buyer_id", uid)] *)
Definition select_cart_of_buyer (ctx : Ctx) (uid : uuid)
  : Action (Result (list CartItem.t)) :=
  fun w =>
    if cart_select_error ctx then (Returned (mkResult None (Some PostgrestError)), w)
    else (Returned
            (mkResult
               (Some (map (embed_listing (db w))
                        (filter (fun c => CartRow.buyer_id c =? uid) (cart_items (db w)))))
               None),
          w).

(** ** The checkout page *)

Module CheckoutPage.

Record t := mk
  { cartItems : list CartItem.t; total : Q; loading : bool;
    showCheckout : bool; sessionId : option string;
    alerts : list string; pushed : list string }.

Definition initial : t := mk [] 0 true false None [] [].

(** [items.reduce((sum, item) => sum + item.listings.price, sum)].
    [add] is the [+] of JavaScript numbers, which gives the sum rounded to
    a double; nothing is assumed about it. *)
Fixpoint reduce_price (add : Q -> Q -> Q) (sum : Q) (items : list CartItem.t)
  : Outcome Q :=
  match items with
  | [] => Returned sum
  | item :: rest =>
      match CartItem.listings item with
      | None => Threw TypeError
      | Some l => reduce_price add (add sum (CartItem.price l)) rest
      end
  end.

Definition loaded (p : t) : t :=
  mk (cartItems p) (total p) false (showCheckout p) (sessionId p) (alerts p) (pushed p).

(** [fetchCart], with its [catch] (the error is logged) and its
    [finally]. *)
Definition fetchCart (add : Q -> Q -> Q) (ctx : Ctx) (p : t) : World -> t * World :=
  fun w =>
    match auth_user ctx with
    | None =>
        (loaded (mk (cartItems p) (total p) (loading p) (showCheckout p) (sessionId p)
                   (alerts p) (pushed p ++ ["/auth/login"])),
         w)
    | Some uid =>
        match select_cart_of_buyer ctx uid w with
        | (Returned r, w') =>
            match error r, data r with
            | None, Some rows =>
                let p1 := mk rows (total p) (loading p) (showCheckout p) (sessionId p)
                            (alerts p) (pushed p) in
                match reduce_price add 0 rows with
                | Returned cartTotal =>
                    (loaded (mk rows cartTotal (loading p) (showCheckout p) (sessionId p)
                               (alerts p) (pushed p)),
                     w')
                | Threw _ => (loaded p1, w')
                end
            | _, _ => (loaded p, w')
            end
        | (Threw _, w') => (loaded p, w')
        end
    end.

Definition handleCheckout (ctx : Ctx) (p : t) : World -> t * World :=
  fun w =>
    match createCheckoutSession ctx (map CartItem.id (cartItems p)) w with
    | (Returned clientSecret, w') =>
        (mk (cartItems p) (total p) (loading p) true (Some clientSecret)
           (alerts p) (pushed p),
         w')
    | (Threw _, w') =>
        (mk (cartItems p) (total p) (loading p) (showCheckout p) (sessionId p)
           (alerts p ++ ["Failed to create checkout session"]) (pushed p),
         w')
    end.

Definition handleCheckoutComplete (ctx : Ctx) (p : t) : World -> t * World :=
  fun w =>
    if negb (truthy (sessionId p)) then (p, w)
    else
      match completeCheckout ctx (str_of (sessionId p)) w with
      | (Returned _, w') =>
          (mk (cartItems p) (total p) (loading p) (showCheckout p) (sessionId p)
             (alerts p) (pushed p ++ ["/orders?success=true"]),
           w')
      | (Threw _, w') =>
          (mk (cartItems p) (total p) (loading p) (showCheckout p) (sessionId p)
             (alerts p ++ ["Failed to complete checkout"]) (pushed p),
           w')
      end.

End CheckoutPage.

(** ** The cart page *)

Module CartPage.

(** The row shape of the page's [interface CartItem], with the columns
    the store model keeps. *)
Record listings_t := mkListings { price : Q; books : option Book.t }.

Record item := mkItem
  { id : uuid; listing_id : uuid; quantity : Z; listings : option listings_t }.

Record t := mk
  { cartItems : list item; total : Q; loading : bool;
    updatingId : option uuid; pushed : list string }.

Definition embed (d : Database) (c : CartRow.t) : item :=
  mkItem (CartRow.id c) (CartRow.listing_id c) (CartRow.quantity c)
    (match find_listing d (CartRow.listing_id c) with
     | Some l => Some (mkListings (Listing.price l) (find_book d (Listing.book_id l)))
     | None => None
     end).

(** What the page's select gives for the buyer. *)
Definition view (uid : uuid) (d : Database) : list item :=
  map (embed d) (filter (fun c => CartRow.buyer_id c =? uid) (cart_items d)).

(** [from("cart_items").select("id, listing_id, quantity, listings(...)")
      .eq("buyer_id", uid)] *)
Definition select_cart (ctx : Ctx) (uid : uuid) : Action (Result (list item)) :=
  fun w =>
    if cart_select_error ctx then (Returned (mkResult None (Some PostgrestError)), w)
    else (Returned (mkResult (Some (view uid (db w))) None), w).

(** [items.reduce((sum, item) => sum + item.listings.price * item.quantity, sum)] *)
Fixpoint reduce_total (sum : Q) (items : list item) : Outcome Q :=
  match items with
  | [] => Returned sum
  | it :: rest =>
      match listings it with
      | None => Threw TypeError
      | Some l => reduce_total (sum + price l * inject_Z (quantity it)) rest
      end
  end.

Definition set_items (items : list item) (p : t) : t :=
  mk items (total p) (loading p) (updatingId p) (pushed p).

Definition set_total (x : Q) (p : t) : t :=
  mk (cartItems p) x (loading p) (updatingId p) (pushed p).

Definition set_updatingId (u : option uuid) (p : t) : t :=
  mk (cartItems p) (total p) (loading p) u (pushed p).

Definition loaded (p : t) : t :=
  mk (cartItems p) (total p) false (updatingId p) (pushed p).

(** [setCartItems(items)], then the total is computed and set; a throw
    in between is caught by the handler and leaves the total as it was. *)
Definition show_items (items : list item) (p : t) : t :=
  match reduce_total 0 items with
  | Returned x => set_total x (set_items items p)
  | Threw _ => set_items items p
  end.

Definition fetchCart (ctx : Ctx) (p : t) : World -> t * World :=
  fun w =>
    match auth_user ctx with
    | None =>
        (loaded (mk (cartItems p) (total p) (loading p) (updatingId p)
                   (pushed p ++ ["/auth/login"])),
         w)
    | Some uid =>
        match select_cart ctx uid w with
        | (Returned r, w') =>
            match error r, data r with
            | None, Some rows => (loaded (show_items rows p), w')
            | _, _ => (loaded p, w')
            end
        | (Threw _, w') => (loaded p, w')
        end
    end.

(** [from("cart_items").delete().eq("id", cartItemId)]; the filter is the
    one of [.in("id", [cartItemId])]. *)
Definition handleRemoveItem (ctx : Ctx) (cartItemId : uuid) (p : t)
  : World -> t * World :=
  fun w =>
    match delete_cart_items ctx [cartItemId] w with
    | (Returned r, w') =>
        match error r with
        | Some _ => (p, w')
        | None =>
            (show_items
               (filter (fun it => negb (id it =? cartItemId)) (cartItems p)) p,
             w')
        end
    | (Threw _, w') => (p, w')
    end.

Definition handleUpdateQuantity (ctx : Ctx) (cartItemId : uuid) (newQuantity : Z)
    (p : t) : World -> t * World :=
  fun w =>
    if (newQuantity <? 1)%Z then (p, w)
    else
      let p1 := set_updatingId (Some cartItemId) p in
      match update_cart_quantity ctx newQuantity cartItemId w with
      | (Returned r, w') =>
          match error r with
          | Some _ => (set_updatingId None p1, w')
          | None =>
              (set_updatingId None
                 (show_items
                    (map (fun it =>
                            if id it =? cartItemId
                            then mkItem (id it) (listing_id it) newQuantity (listings it)
                            else it)
                       (cartItems p1))
                    p1),
               w')
          end
      | (Threw _, w') => (set_updatingId None p1, w')
      end.

End CartPage.

(** ** The buyer dashboard: the statistics *)

Module BuyerDashboard.

Record stats := mkStats
  { totalOrders : nat; totalSpent : Q; pendingOrders : nat }.

(** The rows of [from("orders").select("total_amount, status")
    .eq("buyer_id", uid)]. *)
Definition orders_of (uid : uuid) (d : Database) : list Order.t :=
  filter (fun o => Order.buyer_id o =? uid) (orders d).

(** The three figures computed from [allOrders || []]. *)
Definition stats_of (allOrders : option (list Order.t)) : stats :=
  let rows := match allOrders with Some rows => rows | None => [] end in
  mkStats
    (List.length rows)
    (fold_left (fun sum order => sum + Order.total_amount order) rows 0)
    (List.length (filter (fun order => Order.status order =? "pending") rows)).

End BuyerDashboard.

(** ** More vocabulary *)

(** The store with the statuses of the listings replaced. *)
Definition restatus (f : Listing.t -> string) (w : World) : World :=
  mkWorld
    (set_listings (db w) (map (fun l => with_status (f l) l) (listings (db w))))
    (stripe w).

(** An id that [join] and [split] carry unchanged. *)
Fixpoint comma_free (s : string) : bool :=
  match s with
  | EmptyString => true
  | String c rest => negb (Ascii.eqb c ",") && comma_free rest
  end.

(** A listing row after a checkout: every column but the status is kept,
    and the status is kept or "sold". *)
Definition sold_or_kept (l l' : Listing.t) : Prop :=
  Listing.id l' = Listing.id l /\
  Listing.seller_id l' = Listing.seller_id l /\
  Listing.book_id l' = Listing.book_id l /\
  Listing.price l' = Listing.price l /\
  (Listing.status l' = Listing.status l \/ Listing.status l' = "sold").

(** A message row after a thread fetch by [caller] for [other]: every
    column but [read] is kept; [read] is kept, or set on a message from
    [other] to [caller]. *)
Definition read_or_kept (caller other : option uuid) (m m' : Message.t) : Prop :=
  m' = m \/
  (m' = mark_read m /\
   caller = Some (Message.receiver_id m) /\ other = Some (Message.sender_id m)).

(** The session [createCheckoutSession] creates. *)
Definition new_session (ctx : Ctx) (uid : uuid) (ids : list uuid)
    (items : list LineItem.t) : Session.t :=
  Session.mk (stripe_session_id ctx) (stripe_client_secret ctx)
    "embedded" "never" "payment" items
    (Some [("buyer_id", uid); ("cart_item_ids", join_comma ids)])
    "unpaid" None.

(** The checkout page of the scenario, after [fetchCart] and
    [handleCheckout]. *)
Definition page_loaded : CheckoutPage.t :=
  fst (CheckoutPage.fetchCart Qplus (healthy (Some "buyer")) CheckoutPage.initial w0).

Definition page_paying : CheckoutPage.t :=
  fst (CheckoutPage.handleCheckout (healthy (Some "buyer")) page_loaded w0).

(** The cart page shows what the store holds for the buyer: its items are
    what its select would give now, and its total is the total of its
    items. *)
Definition cart_page_in_step (uid : uuid) (p : CartPage.t) (w : World) : Prop :=
  CartPage.cartItems p = CartPage.view uid (db w) /\
  CartPage.reduce_total 0 (CartPage.cartItems p) = Returned (CartPage.total p).

(** A cart row after a quantity update for [cid] to [q]: every column but
    the quantity is kept; the quantity is kept, or it is [q], at least 1,
    on a row with the id [cid]. *)
Definition requantified (cid : uuid) (q : Z) (c c' : CartRow.t) : Prop :=
  CartRow.id c' = CartRow.id c /\
  CartRow.buyer_id c' = CartRow.buyer_id c /\
  CartRow.listing_id c' = CartRow.listing_id c /\
  (CartRow.quantity c' = CartRow.quantity c \/
   (CartRow.id c = cid /\ CartRow.quantity c' = q /\ (1 <= q)%Z)).

(** The cart page of the scenario, after [fetchCart]. *)
Definition cart_page_loaded : CartPage.t :=
  fst (CartPage.fetchCart (healthy (Some "buyer")) (CartPage.mk [] 0 true None []) w0).

(** A request in which the update of [messages] comes back with an
    [error]. *)
Definition ctx_messages_update_fails : Ctx :=
  failing_messages_update (healthy (Some "me")).

(** The same store under the policy of the repository's scripts. *)
Definition ctx_profiles_own : Ctx := profiles_select_own (healthy (Some "me")).

(** The conversation list of the caller "me" over [db_chat]. *)
Definition conversation_A : Conversation.t :=
  Conversation.mk "A" (Some (Profile.mk "A" (Some "Ann") None))
    (Some (Message.mk "m3" "A" "me" "yes" None false 30)) 1.

Definition conversation_B : Conversation.t :=
  Conversation.mk "B" (Some (Profile.mk "B" (Some "Bob") None))
    (Some (Message.mk "m1" "B" "me" "hello" None false 10)) 1.

(** A conversation as the list shows it when the counterpart's profile
    is not among the selected rows. *)
Definition without_profile (c : Conversation.t) : Conversation.t :=
  Conversation.mk (Conversation.userId c) None (Conversation.lastMessage c)
    (Conversation.unreadCount c).

(** * Properties of the checkout workflow *)

Section Checkout.

Variable ctx : Ctx.

Lemma mem_In x xs : mem x xs = true <-> In x xs.
Proof.
  unfold mem. rewrite existsb_exists. split.
  - intros [y [Hy E]]. apply String.eqb_eq in E. now subst.
  - intros H. exists x. split; [assumption | apply String.eqb_refl].
Qed.

(** *** The loop over the cart items *)

(** The loop writes neither the cart nor the provider, whatever its
    outcome, and only ever appends to the orders. *)
Lemma for_of_item_frame uid session items : forall w o w',
  for_of items (completeCheckout_item ctx uid session) w = (o, w') ->
  cart_items (db w') = cart_items (db w) /\ stripe w' = stripe w /\
  messages (db w') = messages (db w) /\
  exists new, orders (db w') = orders (db w) ++ new.
Proof.
  induction items as [|item items IH]; intros w o w' H.
  - inversion H; subst. repeat split; trivial. exists []. now rewrite app_nil_r.
  - cbn [for_of] in H. unfold bind at 1 in H.
    unfold completeCheckout_item in H at 1.
    destruct (CartItem.listings item) as [l|].
    + unfold bind at 1, insert_order in H.
      destruct (order_insert_error ctx _); cbn in H.
      * inversion H; subst. repeat split; trivial. exists []. now rewrite app_nil_r.
      * unfold bind, update_listing_status in H; cbn in H.
        destruct (listing_update_error ctx _); cbn in H;
          apply IH in H; cbn in H;
          destruct H as (Hc & Hs & Hm & new & Ho);
          (repeat split; trivial); eexists; rewrite Ho, <- app_assoc; reflexivity.
    + cbn in H. inversion H; subst. repeat split; trivial.
      exists []. now rewrite app_nil_r.
Qed.

Lemma sell_nil ls : sell [] ls = ls.
Proof. unfold sell. cbn. apply map_id. Qed.

Lemma sell_cons lid lids ls :
  sell lids (map (fun l => if Listing.id l =? lid then with_status "sold" l else l) ls)
  = sell (lid :: lids) ls.
Proof.
  unfold sell. rewrite map_map. apply map_ext. intros l. cbn [mem existsb].
  destruct (Listing.id l =? lid) eqn:E; cbn.
  - destruct (mem (Listing.id l) lids); reflexivity.
  - reflexivity.
Qed.

(** When the loop completes, its effect in closed form: one order row
    per item, appended in order, none of whose inserts came back with an
    [error], and the applied updates. *)
Lemma for_of_item_ok uid session items : forall w w',
  for_of items (completeCheckout_item ctx uid session) w = (Returned tt, w') ->
  exists ls,
    map CartItem.listings items = map Some ls /\
    orders (db w') =
      orders (db w) ++ map (fun il => order_row uid session (fst il) (snd il))
                         (combine items ls) /\
    Forall (fun o => order_insert_error ctx o = false)
      (map (fun il => order_row uid session (fst il) (snd il)) (combine items ls)) /\
    listings (db w') =
      sell (applied ctx (map CartItem.listing_id items)) (listings (db w)).
Proof.
  induction items as [|item items IH]; intros w w' H.
  - inversion H; subst. exists []. cbn. rewrite app_nil_r, sell_nil.
    repeat split; constructor.
  - cbn [for_of] in H. unfold bind at 1 in H.
    unfold completeCheckout_item in H at 1.
    destruct (CartItem.listings item) as [l|] eqn:El; [|discriminate].
    unfold bind at 1, insert_order in H.
    destruct (order_insert_error ctx _) eqn:Ei; cbn in H; [discriminate|].
    unfold bind, update_listing_status in H; cbn in H.
    destruct (listing_update_error ctx _) eqn:Eu; cbn in H;
      apply IH in H; cbn in H; destruct H as (ls & Hl & Ho & Hi & Hs);
      exists (l :: ls); cbn [map combine fst snd];
      rewrite El, Hl, Ho, <- app_assoc, Hs;
      unfold applied; cbn [filter]; rewrite Eu; cbn [negb];
      (repeat split; trivial); try (constructor; assumption).
    apply sell_cons.
Qed.

(** *** [completeCheckout] *)

(** What a returning call went through. *)
Lemma completeCheckout_returned sid w r w' :
  completeCheckout ctx sid w = (Returned r, w') ->
  exists uid session w1,
    auth_user ctx = Some uid /\
    session_of sid w = Some session /\
    Session.payment_status session = "paid" /\
    cart_select_error ctx = false /\
    cart_delete_error ctx = false /\
    for_of (map (embed_listing (db w))
              (cart_rows_of (metadata_cart_item_ids session) uid (db w)))
      (completeCheckout_item ctx uid session) w = (Returned tt, w1) /\
    w' = mkWorld
           (set_cart_items (db w1)
              (filter (fun c => negb (mem (CartRow.id c) (metadata_cart_item_ids session)))
                 (cart_items (db w1))))
           (stripe w1) /\
    r = mkSuccess true.
Proof.
  unfold completeCheckout, bind, getUser, ret. intros H.
  destruct (auth_user ctx) as [uid|]; [|discriminate].
  unfold stripe_sessions_retrieve in H.
  destruct (session_of sid w) as [session|]; [|discriminate].
  destruct (Session.payment_status session =? "paid") eqn:Ep; [|discriminate].
  cbn [negb] in H. unfold select_cart_items in H.
  destruct (cart_select_error ctx); [discriminate|]. cbn in H.
  destruct (for_of _ _ w) as [[[]|e] w1] eqn:Eloop; [|discriminate].
  unfold delete_cart_items in H.
  destruct (cart_delete_error ctx); cbn in H; [discriminate|].
  inversion H; subst. exists uid, session, w1.
  apply String.eqb_eq in Ep. repeat split; trivial.
Qed.

Lemma embedded_listings d rows : forall ls,
  map CartItem.listings (map (embed_listing d) rows) = map Some ls ->
  exists ls',
    Forall2 (fun c l => find_listing d (CartRow.listing_id c) = Some l) rows ls' /\
    forall uid session,
      map (fun il => order_row uid session (fst il) (snd il))
        (combine (map (embed_listing d) rows) ls)
      = map (fun cl => order_for uid session (fst cl) (snd cl)) (combine rows ls').
Proof.
  induction rows as [|c rows IH]; intros [|l ls] H; try discriminate.
  - exists []. split; [constructor | reflexivity].
  - cbn in H. injection H as Hl Hrest.
    destruct (IH ls Hrest) as (ls' & HF & Ho).
    destruct (find_listing d (CartRow.listing_id c)) as [l0|] eqn:El; [|discriminate].
    exists (l0 :: ls'). split.
    + constructor; assumption.
    + intros uid session. cbn. rewrite Ho. f_equal.
      injection Hl as <-. reflexivity.
Qed.

(** The store after a returning call, in closed form. *)
Lemma completeCheckout_effects sid w r w' :
  completeCheckout ctx sid w = (Returned r, w') ->
  exists uid session ls,
    auth_user ctx = Some uid /\
    session_of sid w = Some session /\
    Session.payment_status session = "paid" /\
    let ids := metadata_cart_item_ids session in
    let rows := cart_rows_of ids uid (db w) in
    Forall2 (fun c l => find_listing (db w) (CartRow.listing_id c) = Some l) rows ls /\
    orders (db w') =
      orders (db w)
      ++ map (fun cl => order_for uid session (fst cl) (snd cl)) (combine rows ls) /\
    listings (db w') =
      sell (applied ctx (map CartRow.listing_id rows)) (listings (db w)) /\
    cart_items (db w') =
      filter (fun c => negb (mem (CartRow.id c) ids)) (cart_items (db w)) /\
    stripe w' = stripe w /\
    r = mkSuccess true.
Proof.
  intros H. apply completeCheckout_returned in H.
  destruct H as (uid & session & w1 & Hu & Hs & Hp & _ & _ & Hloop & -> & ->).
  pose proof (for_of_item_frame _ _ _ _ _ _ Hloop) as (Hc & Hst & _ & _).
  apply for_of_item_ok in Hloop. destruct Hloop as (ls & Hl & Ho & _ & Hli).
  destruct (embedded_listings _ _ _ Hl) as (ls' & HF & Hrows).
  exists uid, session, ls'. cbn.
  rewrite Ho, Hrows, Hli, Hc, Hst, map_map. repeat split; trivial.
Qed.

End Checkout.

(** ** Claims on [completeCheckout] *)

(** C4. For an authenticated caller and a session whose payment status is
    anything other than "paid", [completeCheckout] throws "Payment not
    completed" and the store is exactly as before: no order row, no
    listing status change, no cart deletion. *)
Theorem completeCheckout_not_paid ctx sid w uid session :
  auth_user ctx = Some uid ->
  session_of sid w = Some session ->
  Session.payment_status session <> "paid" ->
  completeCheckout ctx sid w = (Threw PaymentNotCompletedError, w).
Proof.
  intros Hu Hs Hp.
  unfold completeCheckout, bind, getUser, ret, stripe_sessions_retrieve.
  rewrite Hu, Hs.
  destruct (Session.payment_status session =? "paid") eqn:E.
  - apply String.eqb_eq in E. contradiction.
  - reflexivity.
Qed.

Lemma completeCheckout_not_paid_witness :
  completeCheckout (healthy (Some "buyer")) "cs_1" w_unpaid
  = (Threw PaymentNotCompletedError, w_unpaid).
Proof.
  eapply completeCheckout_not_paid.
  - reflexivity.
  - reflexivity.
  - cbn. discriminate.
Defined.

Lemma filter_filter_same {A} (p : A -> bool) l : filter p (filter p l) = filter p l.
Proof.
  induction l as [|x l IH]; cbn; [reflexivity|].
  destruct (p x) eqn:E; cbn; [rewrite E, IH|]; trivial.
Qed.

Lemma cart_rows_after_delete ids uid d :
  cart_rows_of ids uid
    (set_cart_items d (filter (fun c => negb (mem (CartRow.id c) ids)) (cart_items d)))
  = [].
Proof.
  unfold cart_rows_of. cbn.
  induction (cart_items d) as [|c cs IH]; cbn; [reflexivity|].
  destruct (mem (CartRow.id c) ids) eqn:E; cbn; [assumption|].
  rewrite E. cbn. assumption.
Qed.

(** C2. Once a call of [completeCheckout] has returned for a session, the
    metadata's cart-item ids match no cart row of any buyer; a second
    call for the same session, whatever the store answers, leaves the
    whole store as it is (no order row is added); and when the caller is
    signed in and the select and the delete come back without error, the
    second call returns [{ success: true }]. *)
Theorem completeCheckout_twice ctx1 sid w r w1 :
  completeCheckout ctx1 sid w = (Returned r, w1) ->
  exists session,
    session_of sid w1 = Some session /\
    (forall uid, cart_rows_of (metadata_cart_item_ids session) uid (db w1) = []) /\
    forall ctx2,
      snd (completeCheckout ctx2 sid w1) = w1 /\
      (auth_user ctx2 <> None ->
       cart_select_error ctx2 = false ->
       cart_delete_error ctx2 = false ->
       fst (completeCheckout ctx2 sid w1) = Returned (mkSuccess true)).
Proof.
  intros H. apply completeCheckout_returned in H.
  destruct H as (uid & session & wl & _ & Hs & Hp & _ & _ & Hloop & -> & _).
  pose proof (for_of_item_frame _ _ _ _ _ _ _ Hloop) as (_ & Hst & _ & _).
  exists session.
  assert (Hs' : forall d, session_of sid (mkWorld d (stripe wl)) = Some session).
  { intros d. unfold session_of in *. cbn. now rewrite Hst. }
  split; [apply Hs'|]. split; [intros u; apply cart_rows_after_delete|].
  intros ctx2.
  unfold completeCheckout, bind, getUser, ret, stripe_sessions_retrieve.
  destruct (auth_user ctx2) as [u|]; [|split; [reflexivity | congruence]].
  rewrite Hs', Hp, String.eqb_refl. cbn [negb].
  unfold select_cart_items.
  destruct (cart_select_error ctx2); [split; [reflexivity | discriminate]|].
  cbn [error data db]. rewrite cart_rows_after_delete. cbn [map for_of].
  unfold delete_cart_items, throw.
  destruct (cart_delete_error ctx2); cbn; [split; [reflexivity | discriminate]|].
  rewrite filter_filter_same. split; [|reflexivity].
  destruct wl as [[]]; reflexivity.
Qed.

Lemma completeCheckout_twice_witness :
  completeCheckout (healthy (Some "buyer")) "cs_1" w_done
  = (Returned (mkSuccess true), w_done).
Proof.
  destruct (completeCheckout_twice (healthy (Some "buyer")) "cs_1" w_paid
              (mkSuccess true) w_done) as (session & _ & _ & Hsecond).
  - vm_compute. reflexivity.
  - destruct (Hsecond (healthy (Some "buyer"))) as [Hw Hr].
    rewrite (surjective_pairing (completeCheckout _ _ w_done)), Hw, Hr.
    + reflexivity.
    + discriminate.
    + reflexivity.
    + reflexivity.
Defined.



Lemma find_listing_sell lids d d' lid l :
  listings d' = sell lids (listings d) ->
  find_listing d lid = Some l ->
  find_listing d' lid
  = Some (if mem lid lids then with_status "sold" l else l).
Proof.
  unfold find_listing, sell. intros -> H.
  induction (listings d) as [|x xs IH]; [discriminate|].
  cbn [find map] in *.
  assert (Hid : Listing.id (if mem (Listing.id x) lids then with_status "sold" x else x)
                = Listing.id x) by (destruct (mem (Listing.id x) lids); reflexivity).
  rewrite Hid. destruct (Listing.id x =? lid) eqn:E.
  - injection H as ->. apply String.eqb_eq in E. now rewrite E.
  - auto.
Qed.

(** C3, as amended.  When [completeCheckout] returns for a paid session:
    the orders table is the one before the call followed by exactly one
    new row for each of the caller's cart rows named by the session
    metadata, in order, with buyer = caller, seller and amount taken from
    the row's listing in the store, status "completed" and the session's
    payment reference; each such listing whose status update the store
    applied reads "sold"; and all matched cart items are deleted: none of
    the caller's cart rows named by the metadata is left. *)
Theorem completeCheckout_success ctx sid w r w' :
  completeCheckout ctx sid w = (Returned r, w') ->
  exists uid session ls,
    auth_user ctx = Some uid /\
    session_of sid w = Some session /\
    Session.payment_status session = "paid" /\
    let ids := metadata_cart_item_ids session in
    let rows := cart_rows_of ids uid (db w) in
    Forall2 (fun c l => find_listing (db w) (CartRow.listing_id c) = Some l) rows ls /\
    orders (db w') =
      orders (db w)
      ++ map (fun cl => order_for uid session (fst cl) (snd cl)) (combine rows ls) /\
    (forall c, In c rows ->
       listing_update_error ctx (CartRow.listing_id c) = false ->
       exists l, find_listing (db w') (CartRow.listing_id c) = Some l /\
                 Listing.status l = "sold") /\
    cart_rows_of ids uid (db w') = [] /\
    (forall c, In c rows -> ~ In c (cart_items (db w'))).
Proof.
  intros H. apply completeCheckout_effects in H.
  destruct H as (uid & session & ls & Hu & Hs & Hp & HF & Ho & Hl & Hc & _ & _).
  exists uid, session, ls. cbn zeta. repeat split; trivial.
  - intros c Hin Hupd.
    assert (Hfind : exists l, find_listing (db w) (CartRow.listing_id c) = Some l).
    { clear - HF Hin. induction HF as [|c0 l0 rows0 ls0 H0 _ IH]; [contradiction|].
      destruct Hin as [<-|Hin]; eauto. }
    destruct Hfind as [l Hfind].
    rewrite (find_listing_sell _ _ _ _ _ Hl Hfind).
    assert (Hmem : mem (CartRow.listing_id c)
                     (applied ctx (map CartRow.listing_id
                        (cart_rows_of (metadata_cart_item_ids session) uid (db w))))
                   = true).
    { apply mem_In. unfold applied. apply filter_In. split.
      - now apply in_map.
      - now rewrite Hupd. }
    rewrite Hmem. eexists. split; reflexivity.
  - rewrite <- (cart_rows_after_delete (metadata_cart_item_ids session) uid (db w)).
    unfold cart_rows_of. rewrite Hc. reflexivity.
  - intros c Hin Hin'. rewrite Hc in Hin'. apply filter_In in Hin'.
    destruct Hin' as [_ Hn]. unfold cart_rows_of in Hin.
    apply filter_In in Hin. destruct Hin as [_ Hy].
    apply andb_true_iff in Hy. destruct Hy as [Hy _]. rewrite Hy in Hn.
    discriminate.
Qed.

Lemma completeCheckout_success_witness :
  completeCheckout (healthy (Some "buyer")) "cs_1" w_paid
  = (Returned (mkSuccess true), w_done) /\
  cart_rows_of ["c1"; "c2"] "buyer" (db w_done) = [] /\
  forall c, In c (cart_rows_of ["c1"; "c2"] "buyer" (db w_paid)) ->
            ~ In c (cart_items (db w_done)).
Proof.
  assert (Hrun : completeCheckout (healthy (Some "buyer")) "cs_1" w_paid
                 = (Returned (mkSuccess true), w_done))
    by (vm_compute; reflexivity).
  split; [exact Hrun|].
  destruct (completeCheckout_success _ _ _ _ _ Hrun)
    as (uid & session & ls & Hu & Hs & _ & _ & _ & _ & Hc & Hrows).
  vm_compute in Hs. injection Hs as <-. injection Hu as <-.
  split; [exact Hc | exact Hrows].
Defined.

(** C3, as stated, fails.  The first attempt throws the store's error at
    the second cart item, after the order of the first one was written;
    the cart is not cleared.  The retry returns [{ success: true }] on the
    paid session, the cart row "c1" is one of the caller's rows matched
    by the session metadata, and the orders table then holds two rows,
    not one, with buyer, seller, listing, amount, status and payment
    reference of that cart item. *)
Lemma completeCheckout_retry_two_orders :
  completeCheckout ctx_insert_L2_fails "cs_1" w_paid = (Threw StoreWriteError, w_failed) /\
  completeCheckout (healthy (Some "buyer")) "cs_1" w_failed
  = (Returned (mkSuccess true), w_retried) /\
  option_map Session.payment_status (session_of "cs_1" w_failed) = Some "paid" /\
  option_map Session.payment_intent (session_of "cs_1" w_failed) = Some (Some "pay_1") /\
  option_map metadata_cart_item_ids (session_of "cs_1" w_failed) = Some ["c1"; "c2"] /\
  In (CartRow.mk "c1" "buyer" "L1" 1) (cart_rows_of ["c1"; "c2"] "buyer" (db w_failed)) /\
  option_map Listing.seller_id (find_listing (db w_failed) "L1") = Some "seller" /\
  order_rows_like (Order.mk "buyer" "seller" "L1" 199 "completed" (Some "pay_1"))
    (db w_retried) = 2%nat.
Proof.
  repeat split; try (vm_compute; reflexivity).
  vm_compute. left. reflexivity.
Qed.

(** The part of C1 the code has: a call returns only if the select, every
    order insert and the delete came back without [error]. *)
Lemma completeCheckout_checked_writes ctx sid w r w' :
  completeCheckout ctx sid w = (Returned r, w') ->
  cart_select_error ctx = false /\
  cart_delete_error ctx = false /\
  exists new,
    orders (db w') = orders (db w) ++ new /\
    Forall (fun o => order_insert_error ctx o = false) new.
Proof.
  intros H. apply completeCheckout_returned in H.
  destruct H as (uid & session & w1 & _ & _ & _ & Hsel & Hdel & Hloop & -> & _).
  apply for_of_item_ok in Hloop. destruct Hloop as (ls & _ & Ho & Hi & _).
  repeat split; trivial. eexists. split; [exact Ho | exact Hi].
Qed.

Lemma item_listing_update_unobserved ctx p uid session item w1 w2 :
  same_but_listings w1 w2 ->
  fst (completeCheckout_item (failing_listing_update p ctx) uid session item w1)
  = fst (completeCheckout_item ctx uid session item w2) /\
  same_but_listings
    (snd (completeCheckout_item (failing_listing_update p ctx) uid session item w1))
    (snd (completeCheckout_item ctx uid session item w2)).
Proof.
  intros Hsame.
  unfold completeCheckout_item, bind, insert_order, update_listing_status, ret, throw.
  cbn [order_insert_error listing_update_error failing_listing_update].
  destruct (CartItem.listings item) as [l|]; [|split; [reflexivity | exact Hsame]].
  destruct (order_insert_error ctx _); cbn [error];
    [split; [reflexivity | exact Hsame]|].
  destruct Hsame as (Hst & Hp & Hb & Hc & Ho & Hm).
  destruct (p (CartItem.listing_id item)),
    (listing_update_error ctx (CartItem.listing_id item));
    unfold same_but_listings; cbn; repeat split; congruence.
Qed.

Lemma for_of_item_listing_updates_unobserved ctx p uid session items :
  forall w1 w2,
    same_but_listings w1 w2 ->
    fst (for_of items (completeCheckout_item (failing_listing_update p ctx) uid session) w1)
    = fst (for_of items (completeCheckout_item ctx uid session) w2) /\
    same_but_listings
      (snd (for_of items (completeCheckout_item (failing_listing_update p ctx) uid session) w1))
      (snd (for_of items (completeCheckout_item ctx uid session) w2)).
Proof.
  induction items as [|item items IH]; intros w1 w2 Hsame.
  - split; [reflexivity | exact Hsame].
  - cbn [for_of]. unfold bind.
    destruct (item_listing_update_unobserved ctx p uid session item w1 w2 Hsame)
      as [Hfst Hsnd].
    destruct (completeCheckout_item (failing_listing_update p ctx) uid session item w1)
      as [o1 w1'].
    destruct (completeCheckout_item ctx uid session item w2) as [o2 w2'].
    cbn [fst snd] in Hfst, Hsnd. subst o2.
    destruct o1 as [[]|e]; [now apply IH | split; [reflexivity | exact Hsnd]].
Qed.

(** The defect behind C1 in general: whether the listing updates come
    back with an [error] or not, [completeCheckout] has the same outcome,
    and writes the same orders and cart. *)
Lemma completeCheckout_listing_updates_unobserved ctx p sid w :
  fst (completeCheckout (failing_listing_update p ctx) sid w)
  = fst (completeCheckout ctx sid w) /\
  same_but_listings
    (snd (completeCheckout (failing_listing_update p ctx) sid w))
    (snd (completeCheckout ctx sid w)).
Proof.
  assert (Hrefl : same_but_listings w w) by (repeat split).
  unfold completeCheckout, bind, getUser, ret, throw.
  cbn [auth_user failing_listing_update].
  destruct (auth_user ctx) as [uid|]; [|split; [reflexivity | exact Hrefl]].
  unfold stripe_sessions_retrieve.
  destruct (session_of sid w) as [session|]; [|split; [reflexivity | exact Hrefl]].
  destruct (negb (Session.payment_status session =? "paid"));
    [split; [reflexivity | exact Hrefl]|].
  unfold select_cart_items. cbn [cart_select_error failing_listing_update].
  destruct (cart_select_error ctx); cbn [error data];
    [split; [reflexivity | exact Hrefl]|].
  destruct (for_of_item_listing_updates_unobserved ctx p uid session
              (map (embed_listing (db w))
                 (cart_rows_of (metadata_cart_item_ids session) uid (db w)))
              w w Hrefl) as [Hfst Hsnd].
  destruct (for_of _ (completeCheckout_item (failing_listing_update p ctx) uid session) w)
    as [o1 w1].
  destruct (for_of _ (completeCheckout_item ctx uid session) w) as [o2 w2].
  cbn [fst snd] in Hfst, Hsnd. subst o2.
  destruct o1 as [[]|e]; [|split; [reflexivity | exact Hsnd]].
  unfold delete_cart_items. cbn [cart_delete_error failing_listing_update].
  destruct Hsnd as (Hst & Hp & Hb & Hc & Ho & Hm).
  destruct (cart_delete_error ctx); unfold same_but_listings; cbn;
    repeat split; congruence.
Qed.

(** C1, at the failing input.  Every listing update comes back with an
    [error]; the action still returns [{ success: true }], with both
    orders written and the cart cleared, and both listings still
    "available". *)
Theorem completeCheckout_drops_listing_update_error :
  exists w',
    completeCheckout ctx_listing_update_fails "cs_1" w_paid
    = (Returned (mkSuccess true), w') /\
    listings (db w') =
      [Listing.mk "L1" "seller" "B1" 199 "available";
       Listing.mk "L2" "seller" "B2" 350 "available"] /\
    orders (db w') =
      [Order.mk "buyer" "seller" "L1" 199 "completed" (Some "pay_1");
       Order.mk "buyer" "seller" "L2" 350 "completed" (Some "pay_1")] /\
    cart_items (db w') = [].
Proof.
  eexists. split; [vm_compute; reflexivity|].
  repeat split.
Qed.

(** * Properties of [createCheckoutSession] *)

Lemma lineItems_of_embedded d rows : forall items,
  lineItems_of (map (embed_listing d) rows) = Returned items ->
  Forall2
    (fun c li =>
       exists l b,
         find_listing d (CartRow.listing_id c) = Some l /\
         find_book d (Listing.book_id l) = Some b /\
         li = line_item_for l b)
    rows items.
Proof.
  induction rows as [|c rows IH]; intros items H; cbn in H.
  - injection H as <-. constructor.
  - destruct (find_listing d (CartRow.listing_id c)) as [l|] eqn:El; [|discriminate].
    cbn in H.
    destruct (find_book d (Listing.book_id l)) as [b|] eqn:Eb; [|discriminate].
    destruct (lineItems_of (map (embed_listing d) rows)) as [lis|e]; [|discriminate].
    injection H as <-. constructor; [|now apply IH].
    exists l, b. repeat split; assumption.
Qed.

(** What a returning call went through. *)
Lemma createCheckoutSession_returned ctx ids w secret w' :
  createCheckoutSession ctx ids w = (Returned secret, w') ->
  exists uid items,
    auth_user ctx = Some uid /\
    lineItems_of (map (embed_listing (db w)) (cart_rows_of ids uid (db w)))
    = Returned items /\
    w' = mkWorld (db w)
           (stripe w
            ++ [Session.mk (stripe_session_id ctx) (stripe_client_secret ctx)
                  "embedded" "never" "payment" items
                  (Some [("buyer_id", uid); ("cart_item_ids", join_comma ids)])
                  "unpaid" None]) /\
    secret = stripe_client_secret ctx.
Proof.
  unfold createCheckoutSession, bind, getUser, ret. intros H.
  destruct (auth_user ctx) as [uid|]; [|discriminate].
  unfold select_cart_items in H.
  destruct (cart_select_error ctx); [discriminate|]. cbn [error data] in H.
  destruct (map _ (cart_rows_of ids uid (db w))) as [|item items] eqn:Erows;
    [discriminate|].
  destruct (lineItems_of (item :: items)) as [lis|e] eqn:El; [|discriminate].
  unfold stripe_sessions_create in H.
  destruct (stripe_create_error ctx); [discriminate|].
  injection H as <- <-. exists uid, lis. repeat split; trivial.
  now rewrite Erows.
Qed.

(** ** Claims on [createCheckoutSession] *)

(** C6. For a signed-in caller, when no cart row whose id is among the
    given ids belongs to the caller (the ids are another buyer's, or of no
    row at all, or there is no id), [createCheckoutSession] throws "Cart
    items not found"; no session is created at the provider and the store
    is as before. *)
Theorem createCheckoutSession_not_found ctx ids w uid :
  auth_user ctx = Some uid ->
  (forall c, In c (cart_items (db w)) -> In (CartRow.id c) ids ->
             CartRow.buyer_id c <> uid) ->
  createCheckoutSession ctx ids w = (Threw NotFoundError, w).
Proof.
  intros Hu Hnone.
  assert (Hrows : cart_rows_of ids uid (db w) = []).
  { unfold cart_rows_of.
    induction (cart_items (db w)) as [|c cs IH]; [reflexivity|].
    cbn [filter].
    destruct (mem (CartRow.id c) ids && (CartRow.buyer_id c =? uid)) eqn:E.
    - apply andb_true_iff in E. destruct E as [Em Eb].
      apply mem_In in Em. apply String.eqb_eq in Eb.
      exfalso. apply (Hnone c); [now left | assumption | assumption].
    - apply IH. intros c' Hin. apply Hnone. now right. }
  unfold createCheckoutSession, bind, getUser, ret, select_cart_items.
  rewrite Hu, Hrows.
  destruct (cart_select_error ctx); reflexivity.
Qed.

Lemma createCheckoutSession_not_found_witness :
  createCheckoutSession (healthy (Some "mallory")) ["c1"; "c2"; "c9"] w0
  = (Threw NotFoundError, w0).
Proof.
  apply (createCheckoutSession_not_found _ _ _ "mallory").
  - reflexivity.
  - intros c Hin _ Hb. cbn in Hin.
    destruct Hin as [<-|[<-|[]]]; discriminate Hb.
Defined.

(** C5. When [createCheckoutSession] returns, the session it created has
    one line item per cart row of the caller named by the ids, in order,
    and the amount of each is the price of the row's listing as the store
    holds it at the call, times 100, rounded; the action takes no amount
    from its caller.  For the cart of prices 199 and 350 the line items
    total 54900 minor units. *)
Theorem createCheckoutSession_store_prices :
  (forall ctx ids w secret w',
      createCheckoutSession ctx ids w = (Returned secret, w') ->
      exists uid session,
        auth_user ctx = Some uid /\
        w' = mkWorld (db w) (stripe w ++ [session]) /\
        Session.client_secret session = secret /\
        Forall2
          (fun c li =>
             exists l,
               find_listing (db w) (CartRow.listing_id c) = Some l /\
               LineItem.unit_amount li = Math_round (Listing.price l * 100))
          (cart_rows_of ids uid (db w)) (Session.line_items session)) /\
  (createCheckoutSession (healthy (Some "buyer")) ["c1"; "c2"] w0
   = (Returned "cs_1_secret", mkWorld db0 [session_1]) /\
   map LineItem.unit_amount (Session.line_items session_1) = [19900; 35000]%Z /\
   total_minor_units (Session.line_items session_1) = 54900%Z).
Proof.
  split.
  - intros ctx ids w secret w' H.
    apply createCheckoutSession_returned in H.
    destruct H as (uid & items & Hu & Hl & -> & ->).
    eexists uid, _. repeat split; [assumption|]. cbn.
    apply lineItems_of_embedded in Hl.
    eapply Forall2_impl; [|exact Hl].
    cbn. intros c li (l & b & Hfl & _ & ->). exists l. split; [assumption|reflexivity].
  - split; [vm_compute; reflexivity|]. split; reflexivity.
Qed.

Lemma createCheckoutSession_store_prices_witness :
  exists session,
    w_unpaid = mkWorld db0 [session] /\
    Forall2
      (fun c li =>
         exists l,
           find_listing db0 (CartRow.listing_id c) = Some l /\
           LineItem.unit_amount li = Math_round (Listing.price l * 100))
      (cart_rows_of ["c1"; "c2"] "buyer" db0) (Session.line_items session).
Proof.
  destruct (proj1 createCheckoutSession_store_prices (healthy (Some "buyer"))
              ["c1"; "c2"] w0 "cs_1_secret" w_unpaid)
    as (uid & session & Hu & Hw & _ & HF).
  - vm_compute. reflexivity.
  - injection Hu as <-. exists session. split; assumption.
Defined.

Lemma handleUpdateQuantity_requantify ctx cid q w :
  exists f, snd (handleUpdateQuantity ctx cid q w) = requantify f w.
Proof.
  exists (fun c => if negb (q <? 1)%Z && negb (cart_update_error ctx) && (CartRow.id c =? cid)
                   then q else CartRow.quantity c).
  unfold handleUpdateQuantity, requantify, bind, ret, update_cart_quantity.
  assert (Hid : forall cs : list CartRow.t,
             map (fun c => with_quantity (CartRow.quantity c) c) cs = cs).
  { induction cs as [|[] cs IH]; cbn; [|rewrite IH]; reflexivity. }
  destruct (q <? 1)%Z; cbn.
  - rewrite Hid. destruct w as [[]]; reflexivity.
  - destruct (cart_update_error ctx); cbn.
    + rewrite Hid. destruct w as [[]]; reflexivity.
    + f_equal. f_equal. apply map_ext. intros c.
      destruct (CartRow.id c =? cid); [reflexivity|]. now destruct c.
Qed.

Lemma embedded_requantify f ids uid w :
  map (embed_listing (db (requantify f w))) (cart_rows_of ids uid (db (requantify f w)))
  = map (embed_listing (db w)) (cart_rows_of ids uid (db w)).
Proof.
  unfold cart_rows_of, requantify. cbn.
  induction (cart_items (db w)) as [|c cs IH]; [reflexivity|].
  cbn. destruct (mem (CartRow.id c) ids && (CartRow.buyer_id c =? uid)); cbn;
    [f_equal|]; exact IH.
Qed.

(** [createCheckoutSession] commutes with any change of the stored
    quantities. *)
Lemma createCheckoutSession_requantify ctx ids f w :
  createCheckoutSession ctx ids (requantify f w)
  = (fst (createCheckoutSession ctx ids w),
     requantify f (snd (createCheckoutSession ctx ids w))).
Proof.
  unfold createCheckoutSession, bind, getUser, ret, throw.
  destruct (auth_user ctx) as [uid|]; [|reflexivity].
  unfold select_cart_items.
  destruct (cart_select_error ctx); [reflexivity|]. cbn [error data].
  rewrite embedded_requantify.
  destruct (map (embed_listing (db w)) (cart_rows_of ids uid (db w))) as [|item items];
    [reflexivity|].
  destruct (lineItems_of (item :: items)); [|reflexivity].
  unfold stripe_sessions_create.
  destruct (stripe_create_error ctx); reflexivity.
Qed.

(** C10. Whatever quantities the cart rows hold, and in particular after
    [handleUpdateQuantity] has stored a quantity above 1,
    [createCheckoutSession] has the same outcome and leaves the same
    sessions at the provider; when it returns, every line item of the
    session has quantity 1 and the listing's price in minor units as its
    amount, so the total charged is the sum of those amounts over the
    matched cart rows. *)
Theorem createCheckoutSession_ignores_quantity ctx ids w :
  (forall f,
      fst (createCheckoutSession ctx ids (requantify f w))
      = fst (createCheckoutSession ctx ids w) /\
      stripe (snd (createCheckoutSession ctx ids (requantify f w)))
      = stripe (snd (createCheckoutSession ctx ids w))) /\
  (forall ctx' cid q,
      let w_q := snd (handleUpdateQuantity ctx' cid q w) in
      fst (createCheckoutSession ctx ids w_q) = fst (createCheckoutSession ctx ids w) /\
      stripe (snd (createCheckoutSession ctx ids w_q))
      = stripe (snd (createCheckoutSession ctx ids w))) /\
  (forall secret w',
      createCheckoutSession ctx ids w = (Returned secret, w') ->
      exists uid session ls,
        auth_user ctx = Some uid /\
        stripe w' = stripe w ++ [session] /\
        Forall2 (fun c l => find_listing (db w) (CartRow.listing_id c) = Some l)
          (cart_rows_of ids uid (db w)) ls /\
        Forall2 (fun l li =>
                   LineItem.quantity li = 1%Z /\
                   LineItem.unit_amount li = Math_round (Listing.price l * 100))
          ls (Session.line_items session) /\
        total_minor_units (Session.line_items session)
        = sum_Z (map (fun l => Math_round (Listing.price l * 100)) ls)).
Proof.
  assert (Hcomm : forall f,
             fst (createCheckoutSession ctx ids (requantify f w))
             = fst (createCheckoutSession ctx ids w) /\
             stripe (snd (createCheckoutSession ctx ids (requantify f w)))
             = stripe (snd (createCheckoutSession ctx ids w))).
  { intros f. rewrite createCheckoutSession_requantify. split; reflexivity. }
  split; [exact Hcomm|]. split.
  - intros ctx' cid q w_q. subst w_q.
    destruct (handleUpdateQuantity_requantify ctx' cid q w) as [f ->]. apply Hcomm.
  - intros secret w' H. apply createCheckoutSession_returned in H.
    destruct H as (uid & items & Hu & Hl & -> & _).
    apply lineItems_of_embedded in Hl.
    assert (Hls : exists ls,
               Forall2 (fun c l => find_listing (db w) (CartRow.listing_id c) = Some l)
                 (cart_rows_of ids uid (db w)) ls /\
               Forall2 (fun l li =>
                          LineItem.quantity li = 1%Z /\
                          LineItem.unit_amount li = Math_round (Listing.price l * 100))
                 ls items).
    { induction Hl as [|c li rows lis (l & b & Hfl & _ & ->) _ (ls & H1 & H2)].
      - exists []. split; constructor.
      - exists (l :: ls). split; constructor; try assumption. split; reflexivity. }
    destruct Hls as (ls & H1 & H2).
    eexists uid, _, ls. cbn [stripe Session.line_items].
    repeat split; try eassumption; try reflexivity.
    cbn [Session.line_items]. clear - H2.
    induction H2 as [|l li ls lis [Hq Hu] _ IH]; [reflexivity|].
    unfold total_minor_units, sum_Z in *. cbn [fold_right map].
    rewrite Hq, Hu, IH. lia.
Qed.

Lemma createCheckoutSession_ignores_quantity_witness :
  fst (createCheckoutSession (healthy (Some "buyer")) ["c1"; "c2"]
         (snd (handleUpdateQuantity (healthy (Some "buyer")) "c1" 5 w0)))
  = Returned "cs_1_secret" /\
  exists session,
    stripe w_unpaid = [session] /\
    Forall (fun li => LineItem.quantity li = 1%Z) (Session.line_items session).
Proof.
  destruct (createCheckoutSession_ignores_quantity (healthy (Some "buyer"))
              ["c1"; "c2"] w0) as (_ & Hq & Hret).
  split.
  - rewrite (proj1 (Hq (healthy (Some "buyer")) "c1" 5%Z)). vm_compute. reflexivity.
  - destruct (Hret "cs_1_secret" w_unpaid) as (uid & session & ls & _ & Hst & _ & HF & _).
    + vm_compute. reflexivity.
    + exists session. split; [exact Hst|].
      clear - HF. induction HF as [|l li ls lis [Hq _] _ IH]; constructor; assumption.
Defined.

(** * Properties of the messages route *)

(** ** The ordering of the rows *)

Lemma created_before_total asc a b :
  created_before asc a b = false -> created_before asc b a = true.
Proof. unfold created_before. destruct asc; lia. Qed.

Lemma created_before_trans asc a b c :
  created_before asc a b = true -> created_before asc b c = true ->
  created_before asc a c = true.
Proof. unfold created_before. destruct asc; lia. Qed.

Lemma insert_sorted_perm asc m l : Permutation (m :: l) (insert_sorted asc m l).
Proof.
  induction l as [|x xs IH]; cbn; [reflexivity|].
  destruct (created_before asc m x); [reflexivity|].
  rewrite perm_swap. now constructor.
Qed.

Lemma order_created_at_perm asc l : Permutation l (order_created_at asc l).
Proof.
  induction l as [|x xs IH]; cbn; [constructor|].
  rewrite <- insert_sorted_perm. now constructor.
Qed.

Lemma insert_sorted_sorted asc m l :
  StronglySorted (precedes asc) l ->
  StronglySorted (precedes asc) (insert_sorted asc m l).
Proof.
  induction 1 as [|x xs Hs IH Hx]; cbn.
  - repeat constructor.
  - destruct (created_before asc m x) eqn:E.
    + constructor; [now constructor|].
      constructor; [exact E|].
      eapply Forall_impl; [|exact Hx]. intros y Hy.
      eapply created_before_trans; eassumption.
    + constructor; [exact IH|].
      apply (Permutation_Forall (insert_sorted_perm asc m xs)).
      constructor; [now apply created_before_total | exact Hx].
Qed.

Lemma order_created_at_sorted asc l :
  StronglySorted (precedes asc) (order_created_at asc l).
Proof.
  induction l as [|x xs IH]; cbn; [constructor|].
  now apply insert_sorted_sorted.
Qed.

(** ** Grouping by counterpart

    The map built by [forEach] is compared with the grouping the
    specification describes: the counterparts in the order in which they
    are first seen, each with the rows exchanged with it, in the order of
    the rows. *)

Section Grouping.

Variable uid : uuid.

Lemma first_seen_snoc rows m :
  first_seen uid (rows ++ [m])
  = if mem (otherUser uid m) (first_seen uid rows) then first_seen uid rows
    else first_seen uid rows ++ [otherUser uid m].
Proof. unfold first_seen. now rewrite fold_left_app. Qed.

Lemma first_seen_In rows : forall k,
  In k (first_seen uid rows) <-> exists m, In m rows /\ otherUser uid m = k.
Proof.
  induction rows as [|m rows IH] using rev_ind; intros k.
  - cbn. split; [contradiction | intros (m & [] & _)].
  - rewrite first_seen_snoc.
    assert (Hsplit : (exists m0, In m0 (rows ++ [m]) /\ otherUser uid m0 = k)
                     <-> In k (first_seen uid rows) \/ otherUser uid m = k).
    { rewrite IH. split.
      - intros (m0 & Hin & Hk). apply in_app_or in Hin.
        destruct Hin as [Hin|[<-|[]]]; [left; eauto | right; assumption].
      - intros [(m0 & Hin & Hk)|Hk].
        + exists m0. split; [apply in_or_app; now left | assumption].
        + exists m. split; [apply in_or_app; right; now left | assumption]. }
    rewrite Hsplit.
    destruct (mem (otherUser uid m) (first_seen uid rows)) eqn:E.
    + apply mem_In in E. split; [now left|]. intros [H|<-]; assumption.
    + rewrite in_app_iff. cbn. tauto.
Qed.

Lemma first_seen_NoDup rows : NoDup (first_seen uid rows).
Proof.
  induction rows as [|m rows IH] using rev_ind; [constructor|].
  rewrite first_seen_snoc.
  destruct (mem (otherUser uid m) (first_seen uid rows)) eqn:E; [assumption|].
  apply NoDup_app; [assumption | repeat constructor; intros [] |].
  intros k Hk [<-|[]]. apply mem_In in Hk. congruence.
Qed.

Section Keyed.

Variable V : Type.
Variable f : string -> V.

Lemma has_keyed k ks : JsMap.has k (keyed f ks) = mem k ks.
Proof.
  unfold JsMap.has, mem, keyed. induction ks as [|k' ks IH]; [reflexivity|].
  cbn. now rewrite IH, (String.eqb_sym k' k).
Qed.

Lemma set_keyed_new k v ks :
  mem k ks = false -> JsMap.set k v (keyed f ks) = keyed f ks ++ [(k, v)].
Proof.
  unfold mem, keyed. induction ks as [|k' ks IH]; [reflexivity|].
  cbn. rewrite (String.eqb_sym k k'). intros H. apply orb_false_iff in H.
  destruct H as [-> H]. now rewrite IH.
Qed.

Lemma get_snoc_new k v ks :
  mem k ks = false -> JsMap.get k (keyed f ks ++ [(k, v)]) = Some v.
Proof.
  unfold mem, keyed, JsMap.get. induction ks as [|k' ks IH]; cbn.
  - now rewrite String.eqb_refl.
  - rewrite (String.eqb_sym k k'). intros H. apply orb_false_iff in H.
    destruct H as [-> H]. now apply IH.
Qed.

Lemma set_snoc_new k v v' ks :
  mem k ks = false ->
  JsMap.set k v' (keyed f ks ++ [(k, v)]) = keyed f ks ++ [(k, v')].
Proof.
  unfold mem, keyed. induction ks as [|k' ks IH]; cbn.
  - now rewrite String.eqb_refl.
  - rewrite (String.eqb_sym k k'). intros H. apply orb_false_iff in H.
    destruct H as [-> H]. now rewrite IH.
Qed.

Lemma get_keyed k ks : mem k ks = true -> JsMap.get k (keyed f ks) = Some (f k).
Proof.
  unfold mem, keyed, JsMap.get. induction ks as [|k' ks IH]; [discriminate|].
  cbn. rewrite (String.eqb_sym k k').
  destruct (k' =? k) eqn:E; cbn.
  - apply String.eqb_eq in E. now subst.
  - exact IH.
Qed.

Lemma set_keyed_old k v ks :
  NoDup ks -> mem k ks = true ->
  JsMap.set k v (keyed f ks)
  = map (fun k' => (k', if k' =? k then v else f k')) ks.
Proof.
  unfold mem, keyed. induction 1 as [|k' ks Hnin Hnd IH]; [discriminate|].
  cbn. rewrite (String.eqb_sym k k').
  destruct (k' =? k) eqn:E; cbn.
  - intros _. f_equal. apply String.eqb_eq in E. subst k'.
    apply map_ext_in. intros k' Hin.
    destruct (k' =? k) eqn:E'; [|reflexivity].
    apply String.eqb_eq in E'. subst. contradiction.
  - intros H. now rewrite IH.
Qed.

End Keyed.

Lemma filter_snoc {A} (p : A -> bool) l x :
  filter p (l ++ [x]) = filter p l ++ (if p x then [x] else []).
Proof. rewrite filter_app. cbn. destruct (p x); reflexivity. Qed.

Lemma filter_none {A} (p : A -> bool) l :
  (forall x, In x l -> p x = false) -> filter p l = [].
Proof.
  induction l as [|x l IH]; intros H; [reflexivity|].
  cbn. rewrite (H x) by now left. apply IH. intros y Hy. apply H. now right.
Qed.

Lemma with_user_unseen rows k :
  mem k (first_seen uid rows) = false -> filter (with_user uid k) rows = [].
Proof.
  intros E. apply filter_none. intros x Hx. unfold with_user.
  destruct (otherUser uid x =? k) eqn:Ek; [|reflexivity].
  apply String.eqb_eq in Ek.
  assert (Hin : In k (first_seen uid rows)) by (apply first_seen_In; eauto).
  apply mem_In in Hin. congruence.
Qed.

(** The map built by the loop is the grouping by counterpart. *)
Lemma group_messages_grouped rows : group_messages uid rows = grouped uid rows.
Proof.
  induction rows as [|m rows IH] using rev_ind; [reflexivity|].
  unfold group_messages in *. rewrite fold_left_app, IH. cbn [fold_left].
  unfold group_message, grouped. rewrite first_seen_snoc, has_keyed.
  destruct (mem (otherUser uid m) (first_seen uid rows)) eqn:E; cbn [negb].
  - rewrite get_keyed by assumption.
    rewrite set_keyed_old by (trivial using first_seen_NoDup).
    unfold keyed. apply map_ext. intros k. rewrite filter_snoc. unfold with_user.
    rewrite (String.eqb_sym k).
    destruct (otherUser uid m =? k) eqn:Ek; [|now rewrite app_nil_r].
    apply String.eqb_eq in Ek. now subst k.
  - rewrite set_keyed_new by assumption.
    rewrite get_snoc_new by assumption.
    rewrite set_snoc_new by assumption.
    unfold keyed. rewrite map_app. cbn [map]. f_equal.
    + apply map_ext_in. intros k Hin. rewrite filter_snoc. unfold with_user.
      destruct (otherUser uid m =? k) eqn:Ek; [|now rewrite app_nil_r].
      apply String.eqb_eq in Ek. subst k. apply mem_In in Hin. congruence.
    + rewrite filter_snoc, with_user_unseen by assumption.
      unfold with_user. now rewrite String.eqb_refl.
Qed.

(** *** The conversation list over rows sorted newest first *)

Lemma StronglySorted_snoc {A} (R : A -> A -> Prop) l x :
  StronglySorted R (l ++ [x]) <->
  StronglySorted R l /\ Forall (fun y => R y x) l.
Proof.
  induction l as [|a l IH]; cbn.
  - split; [intros _; split; constructor | intros _; repeat constructor].
  - split.
    + intros H. apply StronglySorted_inv in H. destruct H as [Hs Hf].
      apply IH in Hs. destruct Hs as [Hs Hx].
      apply Forall_app in Hf. destruct Hf as [Hf Hax].
      split; constructor; trivial. now inversion Hax.
    + intros [Hs Hf]. apply StronglySorted_inv in Hs. destruct Hs as [Hs Ha].
      inversion Hf; subst. constructor.
      * apply IH. now split.
      * apply Forall_app. split; [assumption | now repeat constructor].
Qed.

Lemma StronglySorted_map {A B} (R : B -> B -> Prop) (g : A -> B) l :
  StronglySorted (fun a b => R (g a) (g b)) l -> StronglySorted R (map g l).
Proof.
  induction 1 as [|a l _ IH Ha]; cbn; constructor; [assumption|].
  apply Forall_map. exact Ha.
Qed.

Lemma StronglySorted_agree {A} (R R' : A -> A -> Prop) l :
  (forall a b, In a l -> In b l -> R a b -> R' a b) ->
  StronglySorted R l -> StronglySorted R' l.
Proof.
  intros Hagree. induction 1 as [|a l _ IH Ha]; constructor.
  - apply IH. intros x y Hx Hy. apply Hagree; now right.
  - apply Forall_forall. intros y Hy. apply Hagree; [now left | now right |].
    rewrite Forall_forall in Ha. now apply Ha.
Qed.

Lemma hd_error_app_nonempty {A} (l l' : list A) :
  l <> [] -> hd_error (l ++ l') = hd_error l.
Proof. destruct l; [contradiction | reflexivity]. Qed.

(** A counterpart already seen has a first row, and keeps it. *)
Lemma with_user_seen rows k :
  In k (first_seen uid rows) ->
  exists m, hd_error (filter (with_user uid k) rows) = Some m /\
            In m rows /\ otherUser uid m = k.
Proof.
  intros Hk. apply first_seen_In in Hk. destruct Hk as (m0 & Hin & Hk).
  assert (Hf : In m0 (filter (with_user uid k) rows)).
  { apply filter_In. split; [assumption|]. unfold with_user. subst k.
    apply String.eqb_refl. }
  destruct (filter (with_user uid k) rows) as [|m ms] eqn:E; [contradiction|].
  exists m. split; [reflexivity|].
  assert (Hm : In m (filter (with_user uid k) rows)) by (rewrite E; now left).
  apply filter_In in Hm. destruct Hm as [Hm Hw]. split; [assumption|].
  now apply String.eqb_eq in Hw.
Qed.

Lemma head_time_snoc rows m k :
  In k (first_seen uid rows) -> head_time uid (rows ++ [m]) k = head_time uid rows k.
Proof.
  intros Hk. unfold head_time. rewrite filter_snoc.
  destruct (with_user_seen rows k Hk) as (m0 & Hhd & _).
  rewrite hd_error_app_nonempty; [reflexivity|].
  intros E. rewrite E in Hhd. discriminate.
Qed.

(** Over rows sorted newest first, the counterparts come in the order of
    their first rows' [created_at], descending. *)
Lemma first_seen_sorted rows :
  StronglySorted newest_first rows ->
  StronglySorted (fun k1 k2 => (head_time uid rows k2 <= head_time uid rows k1)%Z)
    (first_seen uid rows).
Proof.
  induction rows as [|m rows IH] using rev_ind; intros Hs; [constructor|].
  apply StronglySorted_snoc in Hs. destruct Hs as [Hs Hm].
  specialize (IH Hs).
  assert (Hold : StronglySorted
                   (fun k1 k2 => (head_time uid (rows ++ [m]) k2
                                  <= head_time uid (rows ++ [m]) k1)%Z)
                   (first_seen uid rows)).
  { eapply StronglySorted_agree; [|exact IH].
    intros a b Ha Hb. now rewrite !head_time_snoc. }
  rewrite first_seen_snoc.
  destruct (mem (otherUser uid m) (first_seen uid rows)) eqn:E; [exact Hold|].
  apply StronglySorted_snoc. split; [exact Hold|].
  apply Forall_forall. intros k Hk. rewrite (head_time_snoc rows m k) by assumption.
  unfold head_time at 1.
  rewrite filter_snoc, with_user_unseen by assumption.
  unfold with_user at 1. rewrite String.eqb_refl. cbn.
  destruct (with_user_seen rows k Hk) as (m0 & Hhd & Hin & _).
  unfold head_time. rewrite Hhd.
  rewrite Forall_forall in Hm. specialize (Hm m0 Hin).
  unfold newest_first, precedes, created_before in Hm. lia.
Qed.

(** Over rows sorted newest first, the first row of a counterpart is its
    newest. *)
Lemma first_row_newest rows k m :
  StronglySorted newest_first rows ->
  hd_error (filter (with_user uid k) rows) = Some m ->
  forall m', In m' rows -> with_user uid k m' = true ->
             (Message.created_at m' <= Message.created_at m)%Z.
Proof.
  induction 1 as [|x xs Hs IH Hx]; [discriminate|].
  cbn [filter]. destruct (with_user uid k x) eqn:E; cbn [hd_error].
  - intros [= <-] m' [<-|Hin] _; [lia|].
    rewrite Forall_forall in Hx. specialize (Hx m' Hin).
    unfold newest_first, precedes, created_before in Hx. lia.
  - intros Hhd m' [<-|Hin] Hw; [congruence|]. now apply IH.
Qed.

End Grouping.

(** ** The conversation list *)

Lemma newest_rows_In uid w m :
  In m (newest_rows uid w) <-> In m (messages (db w)) /\ involves uid m = true.
Proof.
  unfold newest_rows. rewrite <- filter_In. split; intros H.
  - eapply Permutation_in; [symmetry; apply order_created_at_perm | exact H].
  - eapply Permutation_in; [apply order_created_at_perm | exact H].
Qed.

Ltac string_cases :=
  repeat match goal with
         | |- context [?a =? ?b] => destruct (String.eqb_spec a b); subst
         | H : context [?a =? ?b] |- _ => destruct (String.eqb_spec a b); subst
         end;
  cbn in *; try congruence; try tauto.

(** A row is grouped under [k] exactly when it is exchanged between the
    caller and [k]. *)
Lemma between_with_user uid k m :
  between uid k m = true <-> involves uid m = true /\ with_user uid k m = true.
Proof. unfold between, involves, with_user, otherUser. string_cases. Qed.

(** The counterpart of a row the caller received is its sender. *)
Lemma unread_with_user uid k m :
  unread_for uid m && with_user uid k m && involves uid m
  = (Message.sender_id m =? k) && (Message.receiver_id m =? uid)
    && negb (Message.read m).
Proof.
  unfold unread_for, involves, with_user, otherUser.
  destruct (Message.read m); string_cases.
Qed.

Lemma GET_conversations ctx uid o w :
  auth_user ctx = Some uid ->
  truthy o = false ->
  messages_select_error ctx = false ->
  exists pm,
    GET ctx o w
    = (mkResponse
         (JsonConversations
            (map (conversation_of uid pm) (grouped uid (newest_rows uid w))))
         200,
       w).
Proof.
  intros Hu Ho Hs.
  unfold GET, catch500, GET_try, bind, getUser, ret.
  rewrite Hu, Ho. cbn [negb]. unfold select_messages. rewrite Hs. cbn [error data].
  rewrite group_messages_grouped. unfold select_profiles.
  destruct (profiles_select_error ctx); eexists; reflexivity.
Qed.

Lemma conversations_In uid pm rows c :
  In c (map (conversation_of uid pm) (grouped uid rows)) ->
  exists k,
    In k (first_seen uid rows) /\
    Conversation.userId c = k /\
    Conversation.lastMessage c = hd_error (filter (with_user uid k) rows) /\
    Conversation.unreadCount c
    = List.length (filter (unread_for uid) (filter (with_user uid k) rows)).
Proof.
  unfold grouped, keyed. rewrite map_map. intros H. apply in_map_iff in H.
  destruct H as (k & <- & Hk). exists k. repeat split; assumption.
Qed.

Lemma conversations_userIds uid pm rows :
  map Conversation.userId (map (conversation_of uid pm) (grouped uid rows))
  = first_seen uid rows.
Proof. unfold grouped, keyed. rewrite !map_map. cbn. apply map_id. Qed.

Lemma conversations_sorted uid pm rows :
  StronglySorted newest_first rows ->
  StronglySorted last_message_desc
    (map (conversation_of uid pm) (grouped uid rows)).
Proof.
  intros Hs. unfold grouped, keyed. rewrite map_map. apply StronglySorted_map.
  exact (first_seen_sorted uid rows Hs).
Qed.

(** In a list ordered on the last message, a conversation whose last
    message is strictly newer stands before. *)
Lemma newer_stands_before L : forall cA cB,
  StronglySorted last_message_desc L ->
  In cA L -> In cB L ->
  (last_created_at cB < last_created_at cA)%Z ->
  exists l1 l2 l3, L = l1 ++ cA :: l2 ++ cB :: l3.
Proof.
  intros cA cB Hs. induction Hs as [|x xs Hs IH Hx]; intros HA HB Hlt;
    [contradiction|].
  rewrite Forall_forall in Hx.
  destruct HA as [->|HA].
  - destruct HB as [->|HB]; [lia|].
    apply in_split in HB. destruct HB as (l2 & l3 & ->).
    exists [], l2, l3. reflexivity.
  - destruct HB as [->|HB].
    + specialize (Hx cA HA). unfold last_message_desc in Hx. lia.
    + destruct (IH HA HB Hlt) as (l1 & l2 & l3 & ->).
      exists (x :: l1), l2, l3. reflexivity.
Qed.

(** C7. For a signed-in caller whose messages the store returns, [GET]
    without [otherUserId] answers 200 with a conversation list such that:
    each conversation's [lastMessage] is a stored message exchanged
    between the caller and that counterpart, and no message exchanged
    between them has a later [created_at]; the list is ordered on
    [lastMessage.created_at], descending; each counterpart of the caller
    has exactly one conversation; and a conversation whose last message
    is strictly later than another's stands before it. *)
Theorem list_conversations_newest_first ctx uid o w :
  auth_user ctx = Some uid ->
  truthy o = false ->
  messages_select_error ctx = false ->
  exists L,
    GET ctx o w = (mkResponse (JsonConversations L) 200, w) /\
    (forall c, In c L ->
       exists m,
         Conversation.lastMessage c = Some m /\
         In m (messages (db w)) /\
         between uid (Conversation.userId c) m = true /\
         forall m', In m' (messages (db w)) ->
                    between uid (Conversation.userId c) m' = true ->
                    (Message.created_at m' <= Message.created_at m)%Z) /\
    StronglySorted last_message_desc L /\
    NoDup (map Conversation.userId L) /\
    (forall X m, In m (messages (db w)) -> between uid X m = true ->
                 In X (map Conversation.userId L)) /\
    (forall cA cB, In cA L -> In cB L ->
                   (last_created_at cB < last_created_at cA)%Z ->
                   exists l1 l2 l3, L = l1 ++ cA :: l2 ++ cB :: l3).
Proof.
  intros Hu Ho Hs.
  destruct (GET_conversations ctx uid o w Hu Ho Hs) as [pm HGET].
  eexists. split; [exact HGET|].
  assert (Hsorted : StronglySorted newest_first (newest_rows uid w))
    by apply order_created_at_sorted.
  assert (HL : StronglySorted last_message_desc
                 (map (conversation_of uid pm) (grouped uid (newest_rows uid w))))
    by now apply conversations_sorted.
  repeat split.
  - intros c Hc. apply conversations_In in Hc.
    destruct Hc as (k & Hk & -> & -> & _).
    destruct (with_user_seen uid _ k Hk) as (m & Hhd & Hin & Hother).
    apply newest_rows_In in Hin. destruct Hin as [Hin Hinv].
    exists m. repeat split; trivial.
    + apply between_with_user. split; [assumption|].
      unfold with_user. rewrite Hother. apply String.eqb_refl.
    + intros m' Hin' Hb. apply between_with_user in Hb. destruct Hb as [Hinv' Hw].
      eapply first_row_newest; try eassumption.
      apply newest_rows_In. now split.
  - exact HL.
  - rewrite conversations_userIds. apply first_seen_NoDup.
  - intros X m Hin Hb. rewrite conversations_userIds.
    apply between_with_user in Hb. destruct Hb as [Hinv Hw].
    apply first_seen_In. exists m. split.
    + apply newest_rows_In. now split.
    + now apply String.eqb_eq in Hw.
  - intros cA cB HA HB Hlt. now apply newer_stands_before.
Qed.

Lemma list_conversations_newest_first_witness :
  exists L,
    GET (healthy (Some "me")) None w_chat = (mkResponse (JsonConversations L) 200, w_chat) /\
    map Conversation.userId L = ["A"; "B"].
Proof.
  destruct (list_conversations_newest_first (healthy (Some "me")) "me" None w_chat)
    as (L & HGET & _); try reflexivity.
  exists L. split; [exact HGET|].
  vm_compute in HGET. injection HGET as <-. reflexivity.
Defined.

(** ** Unread counts and the thread *)

Lemma filter_and {A} (p q : A -> bool) l :
  filter p (filter q l) = filter (fun x => p x && q x) l.
Proof.
  induction l as [|x l IH]; [reflexivity|].
  cbn. destruct (q x); cbn; destruct (p x); cbn; now rewrite IH.
Qed.

Lemma filter_length_perm {A} (p : A -> bool) l l' :
  Permutation l l' -> List.length (filter p l) = List.length (filter p l').
Proof.
  induction 1 as [|x l l' _ IH|x y l|l l' l'' _ IH1 _ IH2]; cbn.
  - reflexivity.
  - destruct (p x); cbn; now rewrite IH.
  - destruct (p x), (p y); reflexivity.
  - now rewrite IH1.
Qed.

Lemma unread_count uid pm w c :
  In c (map (conversation_of uid pm) (grouped uid (newest_rows uid w))) ->
  Conversation.unreadCount c
  = List.length (filter (unread_from uid (Conversation.userId c)) (messages (db w))).
Proof.
  intros Hc. apply conversations_In in Hc. destruct Hc as (k & _ & -> & _ & ->).
  unfold newest_rows. rewrite filter_and.
  rewrite <- (filter_length_perm _ _ _ (order_created_at_perm false _)).
  rewrite filter_and. f_equal. apply filter_ext. intros m.
  apply unread_with_user.
Qed.

(** A 200 answer carrying a conversation list comes from the list branch
    of a signed-in caller, and leaves the store as it was. *)
Lemma GET_conversations_inv ctx o w L w1 :
  GET ctx o w = (mkResponse (JsonConversations L) 200, w1) ->
  exists uid pm,
    auth_user ctx = Some uid /\
    L = map (conversation_of uid pm) (grouped uid (newest_rows uid w)) /\
    w1 = w.
Proof.
  unfold GET, catch500, GET_try, bind, getUser, ret. intros H.
  destruct (auth_user ctx) as [uid|]; [|discriminate].
  destruct (truthy o); cbn [negb] in H; unfold select_messages in H;
    destruct (messages_select_error ctx); cbn in H; try discriminate.
  - unfold update_messages_read in H.
    destruct (messages_update_error ctx); discriminate.
  - rewrite group_messages_grouped in H. unfold select_profiles in H.
    destruct (profiles_select_error ctx); injection H as <- <-;
      eexists uid, _; repeat split; reflexivity.
Qed.

(** What [GET] with [otherUserId] does when the store performs its two
    calls. *)
Lemma GET_thread ctx uid X w :
  auth_user ctx = Some uid ->
  X <> "" ->
  messages_select_error ctx = false ->
  messages_update_error ctx = false ->
  GET ctx (Some X) w
  = (mkResponse
       (JsonMessages
          (order_created_at true (filter (thread_rows ctx uid X) (messages (db w)))))
       200,
     mkWorld
       (set_messages (db w)
          (map (fun m =>
                  if (Message.receiver_id m =? uid) && (Message.sender_id m =? X)
                  then mark_read m else m)
             (messages (db w))))
       (stripe w)).
Proof.
  intros Hu HX Hs Hup.
  unfold GET, catch500, GET_try, bind, getUser, ret.
  rewrite Hu. cbn [truthy str_of].
  destruct (String.eqb_spec X ""); [contradiction|]. cbn [negb].
  unfold select_messages, update_messages_read. rewrite Hs, Hup. reflexivity.
Qed.

(** When the update comes back with an [error], the handler drops it:
    the answer is the same and the store is as it was. *)
Lemma GET_thread_update_error ctx uid X w :
  auth_user ctx = Some uid ->
  X <> "" ->
  messages_select_error ctx = false ->
  messages_update_error ctx = true ->
  GET ctx (Some X) w
  = (mkResponse
       (JsonMessages
          (order_created_at true (filter (thread_rows ctx uid X) (messages (db w)))))
       200,
     w).
Proof.
  intros Hu HX Hs Hup.
  unfold GET, catch500, GET_try, bind, getUser, ret.
  rewrite Hu. cbn [truthy str_of].
  destruct (String.eqb_spec X ""); [contradiction|]. cbn [negb].
  unfold select_messages, update_messages_read. rewrite Hs, Hup. reflexivity.
Qed.

(** The part of C8 the code has.  The [unreadCount] of a conversation in
    the list [GET] answers is the number of stored messages sent by that
    counterpart to the caller with [read = false].  When [GET] with
    [otherUserId = X] has its select and its update performed by the
    store, it answers 200 with the thread, every stored message from [X]
    to the caller then has [read = true], and any conversation list
    answered afterwards to the caller reports [unreadCount = 0] for
    [X]. *)
Lemma thread_read_when_update_applied ctx uid X w :
  (forall o L w1,
      auth_user ctx = Some uid ->
      GET ctx o w = (mkResponse (JsonConversations L) 200, w1) ->
      forall c, In c L ->
        Conversation.unreadCount c
        = List.length (filter (unread_from uid (Conversation.userId c))
                         (messages (db w)))) /\
  (auth_user ctx = Some uid ->
   X <> "" ->
   messages_select_error ctx = false ->
   messages_update_error ctx = false ->
   exists thread w',
     GET ctx (Some X) w = (mkResponse (JsonMessages thread) 200, w') /\
     (forall m, In m (messages (db w')) ->
                Message.sender_id m = X -> Message.receiver_id m = uid ->
                Message.read m = true) /\
     (forall ctx2 o L w2,
         auth_user ctx2 = Some uid ->
         GET ctx2 o w' = (mkResponse (JsonConversations L) 200, w2) ->
         forall c, In c L -> Conversation.userId c = X ->
                   Conversation.unreadCount c = 0%nat)).
Proof.
  assert (Hcount : forall ctx0 w0 o L w1,
             auth_user ctx0 = Some uid ->
             GET ctx0 o w0 = (mkResponse (JsonConversations L) 200, w1) ->
             forall c, In c L ->
               Conversation.unreadCount c
               = List.length (filter (unread_from uid (Conversation.userId c))
                                (messages (db w0)))).
  { intros ctx0 w0 o L w1 Hu H c Hc. apply GET_conversations_inv in H.
    destruct H as (uid' & pm & Hu' & -> & _).
    assert (uid' = uid) by congruence. subst uid'.
    now apply unread_count in Hc. }
  split; [apply Hcount|].
  intros Hu HX Hs Hup. rewrite (GET_thread ctx uid X w Hu HX Hs Hup).
  eexists _, _. split; [reflexivity|].
  assert (Hread : forall m,
             In m (map (fun m =>
                          if (Message.receiver_id m =? uid) && (Message.sender_id m =? X)
                          then mark_read m else m)
                     (messages (db w))) ->
             Message.sender_id m = X -> Message.receiver_id m = uid ->
             Message.read m = true).
  { intros m Hin Hsend Hrecv. apply in_map_iff in Hin.
    destruct Hin as (m0 & Hm & _).
    destruct ((Message.receiver_id m0 =? uid) && (Message.sender_id m0 =? X)) eqn:E.
    - subst m. reflexivity.
    - subst m0. rewrite Hsend, Hrecv, !String.eqb_refl in E. discriminate. }
  split; [exact Hread|].
  intros ctx2 o L w2 Hu2 H c Hc HcX.
  rewrite (Hcount _ _ _ _ _ Hu2 H c Hc), HcX. cbn [db messages set_messages].
  rewrite filter_none; [reflexivity|].
  intros m Hin. unfold unread_from.
  destruct (String.eqb_spec (Message.sender_id m) X); [|reflexivity].
  destruct (String.eqb_spec (Message.receiver_id m) uid); [|reflexivity].
  now rewrite (Hread m Hin).
Qed.

(** C8, at the failing input.  The caller "me" has one unread message
    from "A", and the conversation list reports [unreadCount] 1 for "A".
    The update of [GET] with [otherUserId = "A"] comes back with an
    [error]; the handler still answers 200 with the thread, and the
    store is as it was: the message from "A" is still unread, and the
    conversation list answered afterwards reports [unreadCount] 1 for
    "A", not 0. *)
Theorem GET_thread_drops_update_error :
  GET ctx_messages_update_fails None w_chat
  = (mkResponse (JsonConversations [conversation_A; conversation_B]) 200, w_chat) /\
  Conversation.unreadCount conversation_A
  = List.length (filter (unread_from "me" "A") (messages (db w_chat))) /\
  GET ctx_messages_update_fails (Some "A") w_chat
  = (mkResponse
       (JsonMessages [Message.mk "m2" "me" "A" "hi" None false 20;
                      Message.mk "m3" "A" "me" "yes" None false 30])
       200,
     w_chat) /\
  In (Message.mk "m3" "A" "me" "yes" None false 30)
    (messages (db (snd (GET ctx_messages_update_fails (Some "A") w_chat)))) /\
  GET (healthy (Some "me")) None (snd (GET ctx_messages_update_fails (Some "A") w_chat))
  = (mkResponse (JsonConversations [conversation_A; conversation_B]) 200, w_chat) /\
  Conversation.userId conversation_A = "A" /\
  Conversation.unreadCount conversation_A = 1%nat.
Proof.
  repeat split; try (vm_compute; reflexivity).
  vm_compute. right. right. left. reflexivity.
Qed.

(** ** Sending a message *)

(** C9. For a signed-in caller, [POST] answers 400 "Missing required
    fields" and leaves the store as it was when [receiverId] or [content]
    is falsy (absent or the empty string).  Otherwise, when the store
    accepts the insert, it appends exactly one row to [messages], with
    [read = false], the caller as sender, the given receiver and content,
    and the given [listingId] or null, and answers 200 with that stored
    row; when the store rejects the insert, it answers 500 and the store
    is as it was. *)
Theorem send_message_validates_then_inserts ctx uid req w :
  auth_user ctx = Some uid ->
  (truthy (receiverId req) = false \/ truthy (content req) = false ->
   POST ctx req w = (mkResponse (JsonError "Missing required fields") 400, w)) /\
  (forall r c,
      receiverId req = Some r -> r <> "" ->
      content req = Some c -> c <> "" ->
      (message_insert_error ctx = false ->
       exists row,
         POST ctx req w
         = (mkResponse (JsonMessage row) 200,
            mkWorld (set_messages (db w) (messages (db w) ++ [row])) (stripe w)) /\
         Message.read row = false /\
         Message.sender_id row = uid /\
         Message.receiver_id row = r /\
         Message.content row = c /\
         Message.listing_id row
         = match listingId req with
           | Some l => if l =? "" then None else Some l
           | None => None
           end) /\
      (message_insert_error ctx = true ->
       POST ctx req w = (mkResponse (JsonError "Failed to send message") 500, w))).
Proof.
  intros Hu. unfold POST, catch500, POST_try, bind, getUser, ret. rewrite Hu.
  split.
  - intros [H|H]; rewrite H; [reflexivity|].
    destruct (truthy (receiverId req)); reflexivity.
  - intros r c Hr Hrne Hc Hcne. rewrite Hr, Hc. cbn [truthy str_of].
    destruct (String.eqb_spec r ""); [contradiction|].
    destruct (String.eqb_spec c ""); [contradiction|].
    cbn [negb orb]. unfold insert_message. split; intros ->.
    + eexists. split; [reflexivity|]. cbn. repeat split.
      destruct (listingId req) as [l|]; [|reflexivity].
      cbn. destruct (l =? ""); reflexivity.
    + reflexivity.
Qed.

Lemma send_message_validates_then_inserts_witness :
  POST (healthy (Some "buyer")) (mkPostBody (Some "seller") (Some "") None) w0
  = (mkResponse (JsonError "Missing required fields") 400, w0) /\
  exists row,
    POST (healthy (Some "buyer"))
      (mkPostBody (Some "seller") (Some "Is this available?") None) w0
    = (mkResponse (JsonMessage row) 200,
       mkWorld (set_messages db0 [row]) []) /\
    Message.read row = false.
Proof.
  split.
  - apply (proj1 (send_message_validates_then_inserts (healthy (Some "buyer"))
                    "buyer" (mkPostBody (Some "seller") (Some "") None) w0 eq_refl)).
    right. reflexivity.
  - destruct (proj1 (proj2 (send_message_validates_then_inserts
                              (healthy (Some "buyer")) "buyer"
                              (mkPostBody (Some "seller") (Some "Is this available?") None)
                              w0 eq_refl)
                       "seller" "Is this available?" eq_refl ltac:(discriminate)
                       eq_refl ltac:(discriminate)) eq_refl)
      as (row & HPOST & Hread & _).
    exists row. split; assumption.
Defined.

(** ** The scenarios of the specification *)

(** The checkout scenario: two orders of 199 and 350 with the reference
    "pay_1", both listings sold, the cart empty. *)
Example checkout_scenario :
  completeCheckout (healthy (Some "buyer")) "cs_1" w_paid
  = (Returned (mkSuccess true), w_done) /\
  orders (db w_done)
  = [Order.mk "buyer" "seller" "L1" 199 "completed" (Some "pay_1");
     Order.mk "buyer" "seller" "L2" 350 "completed" (Some "pay_1")] /\
  map Listing.status (listings (db w_done)) = ["sold"; "sold"] /\
  cart_items (db w_done) = [].
Proof. repeat split; vm_compute; reflexivity. Qed.

(** The messaging scenario: the buyer's question, the seller's thread
    fetch, and the seller's conversation list afterwards. *)
Example messaging_scenario :
  let sent :=
    POST (healthy (Some "buyer"))
      (mkPostBody (Some "seller") (Some "Is this available?") None) w0 in
  let fetched := GET (healthy (Some "seller")) (Some "buyer") (snd sent) in
  let listed := GET (healthy (Some "seller")) None (snd fetched) in
  body (fst fetched)
  = JsonMessages [Message.mk "m_new" "buyer" "seller" "Is this available?" None false 100] /\
  messages (db (snd fetched))
  = [Message.mk "m_new" "buyer" "seller" "Is this available?" None true 100] /\
  body (fst listed)
  = JsonConversations
      [Conversation.mk "buyer" (Some (Profile.mk "buyer" (Some "Bo") None))
         (Some (Message.mk "m_new" "buyer" "seller" "Is this available?" None true 100))
         0].
Proof. repeat split; vm_compute; reflexivity. Qed.

(** The conversation list of the caller "me": "A" (latest at 30, one
    unread) before "B" (latest at 10, one unread). *)
Example conversations_example :
  map (fun c => (Conversation.userId c, last_created_at c, Conversation.unreadCount c))
    (match body (fst (GET (healthy (Some "me")) None w_chat)) with
     | JsonConversations L => L
     | _ => []
     end)
  = [("A", 30%Z, 1%nat); ("B", 10%Z, 1%nat)].
Proof. vm_compute. reflexivity. Qed.

(** * More properties of the checkout actions *)

(** ** The metadata round trip *)

Lemma split_comma_free s : comma_free s = true -> split_comma s = [s].
Proof.
  induction s as [|c s IH]; [reflexivity|].
  cbn. intros H. apply andb_true_iff in H. destruct H as [Hc Hs].
  apply negb_true_iff in Hc. rewrite Hc, (IH Hs). reflexivity.
Qed.

Lemma split_comma_app s t :
  comma_free s = true ->
  split_comma (String.append s (String "," t)) = s :: split_comma t.
Proof.
  induction s as [|c s IH]; cbn.
  - reflexivity.
  - intros H. apply andb_true_iff in H. destruct H as [Hc Hs].
    apply negb_true_iff in Hc. rewrite Hc, (IH Hs). reflexivity.
Qed.

(** X1. The ids [createCheckoutSession] joins into the metadata are the
    ids [completeCheckout] splits out of it, when there is at least one
    id and no id holds a comma. *)
Theorem split_join_ids ids :
  ids <> [] ->
  forallb comma_free ids = true ->
  split_comma (join_comma ids) = ids.
Proof.
  unfold join_comma. induction ids as [|x xs IH]; [contradiction|].
  intros _ H. cbn [forallb] in H. apply andb_true_iff in H. destruct H as [Hx Hxs].
  destruct xs as [|y ys].
  - cbn. now apply split_comma_free.
  - change (String.concat "," (x :: y :: ys))
      with (String.append x (String "," (String.concat "," (y :: ys)))).
    rewrite split_comma_app by assumption. f_equal.
    apply IH; [discriminate | assumption].
Qed.

Lemma split_join_ids_witness :
  split_comma (join_comma ["c1"; "c2"; "c3"]) = ["c1"; "c2"; "c3"].
Proof.
  apply split_join_ids.
  - discriminate.
  - reflexivity.
Defined.

(** ** [createCheckoutSession]: all or nothing *)

Lemma createCheckoutSession_returned_rows ctx ids w secret w' uid :
  createCheckoutSession ctx ids w = (Returned secret, w') ->
  auth_user ctx = Some uid ->
  cart_rows_of ids uid (db w) <> [].
Proof.
  unfold createCheckoutSession, bind, getUser, ret, throw. intros H Hu.
  rewrite Hu in H. unfold select_cart_items in H.
  destruct (cart_select_error ctx); [discriminate|]. cbn [error data] in H.
  intros E. rewrite E in H. discriminate.
Qed.

(** X2. Whatever the store and the provider answer,
    [createCheckoutSession] never writes the store.  When it returns, it
    has appended exactly one session to the provider's: unpaid, with at
    least one line item, the caller and the joined ids in its metadata,
    and its client secret is what is returned.  When it throws, the
    provider holds no new session, and the exception is one of four. *)
Theorem createCheckoutSession_all_or_nothing ctx ids w :
  db (snd (createCheckoutSession ctx ids w)) = db w /\
  match fst (createCheckoutSession ctx ids w) with
  | Returned secret =>
      exists uid items,
        auth_user ctx = Some uid /\
        items <> [] /\
        List.length items = List.length (cart_rows_of ids uid (db w)) /\
        stripe (snd (createCheckoutSession ctx ids w))
        = stripe w ++ [new_session ctx uid ids items] /\
        secret = stripe_client_secret ctx
  | Threw e =>
      snd (createCheckoutSession ctx ids w) = w /\
      (e = UnauthenticatedError \/ e = NotFoundError \/ e = TypeError \/ e = StripeError)
  end.
Proof.
  destruct (createCheckoutSession ctx ids w) as [[secret|e] w'] eqn:E; cbn [fst snd].
  - pose proof E as E0. apply createCheckoutSession_returned in E.
    destruct E as (uid & items & Hu & Hl & -> & ->). split; [reflexivity|].
    exists uid, items. repeat split; trivial.
    + intros ->. apply lineItems_of_embedded in Hl.
      apply Forall2_length in Hl.
      apply (createCheckoutSession_returned_rows _ _ _ _ _ uid E0 Hu).
      now apply length_zero_iff_nil.
    + apply lineItems_of_embedded in Hl. symmetry. eapply Forall2_length. exact Hl.
  - revert E. unfold createCheckoutSession, bind, getUser, ret, throw.
    destruct (auth_user ctx) as [uid|];
      [|intros [= <- <-]; repeat split; left; reflexivity].
    unfold select_cart_items.
    destruct (cart_select_error ctx); cbn [error data];
      [intros [= <- <-]; repeat split; right; left; reflexivity|].
    destruct (map (embed_listing (db w)) (cart_rows_of ids uid (db w))) as [|item items];
      [intros [= <- <-]; repeat split; right; left; reflexivity|].
    destruct (lineItems_of (item :: items)) as [lis|e0] eqn:El.
    + unfold stripe_sessions_create.
      destruct (stripe_create_error ctx); [|discriminate].
      intros [= <- <-]. repeat split. right. right. right. reflexivity.
    + intros [= <- <-]. repeat split. right. right. left.
      clear - El. revert e0 El.
      induction (item :: items) as [|i rest IH]; intros e0 El; [discriminate|].
      cbn in El. destruct (CartItem.listings i) as [l|]; [|now injection El as <-].
      destruct (CartItem.books l); [|now injection El as <-].
      destruct (lineItems_of rest) as [|e1]; [discriminate|].
      injection El as <-. now apply IH.
Qed.

(** ** [completeCheckout]: what it can change *)

Lemma sold_or_kept_refl ls : Forall2 sold_or_kept ls ls.
Proof.
  induction ls; constructor; [|assumption].
  unfold sold_or_kept. repeat split. now left.
Qed.

Lemma sold_or_kept_sell lids ls : Forall2 sold_or_kept ls (sell lids ls).
Proof.
  unfold sell. induction ls as [|l ls IH]; cbn; constructor; [|assumption].
  unfold sold_or_kept. destruct (mem (Listing.id l) lids); cbn; repeat split;
    [now right | now left].
Qed.

(** The loop, whatever its outcome. *)
Lemma for_of_item_trace ctx uid session items : forall w o w',
  for_of items (completeCheckout_item ctx uid session) w = (o, w') ->
  stripe w' = stripe w /\
  profiles (db w') = profiles (db w) /\
  books (db w') = books (db w) /\
  cart_items (db w') = cart_items (db w) /\
  messages (db w') = messages (db w) /\
  exists new lids,
    orders (db w') = orders (db w) ++ new /\
    Forall (fun row => Order.buyer_id row = uid /\ Order.status row = "completed") new /\
    listings (db w') = sell lids (listings (db w)).
Proof.
  induction items as [|item items IH]; intros w o w' H.
  - inversion H; subst. repeat split. exists [], [].
    rewrite app_nil_r, sell_nil. repeat split. constructor.
  - cbn [for_of] in H. unfold bind at 1 in H.
    unfold completeCheckout_item in H at 1.
    destruct (CartItem.listings item) as [l|].
    + unfold bind at 1, insert_order in H.
      destruct (order_insert_error ctx _); cbn in H.
      * inversion H; subst. repeat split. exists [], [].
        rewrite app_nil_r, sell_nil. repeat split. constructor.
      * unfold bind, update_listing_status in H; cbn in H.
        destruct (listing_update_error ctx _); cbn in H;
          apply IH in H; cbn in H;
          destruct H as (Hst & Hp & Hb & Hc & Hm & new & lids & Ho & Hnew & Hl);
          (repeat split; trivial).
        -- exists (order_row uid session item l :: new), lids.
           rewrite Ho, <- app_assoc. repeat split; trivial.
           constructor; [split; reflexivity | assumption].
        -- exists (order_row uid session item l :: new), (CartItem.listing_id item :: lids).
           rewrite Ho, <- app_assoc, Hl. repeat split; trivial.
           ++ constructor; [split; reflexivity | assumption].
           ++ apply sell_cons.
    + cbn in H. inversion H; subst. repeat split. exists [], [].
      rewrite app_nil_r, sell_nil. repeat split. constructor.
Qed.

(** X3. Whatever its outcome, [completeCheckout] leaves the provider's
    sessions, the profiles, the books and the messages as they were; it
    only appends order rows, each with the caller as buyer and the status
    "completed"; it keeps every listing row in place and changes at most
    its status, to "sold"; and it adds no cart row. *)
Theorem completeCheckout_frame ctx sid w :
  stripe (snd (completeCheckout ctx sid w)) = stripe w /\
  profiles (db (snd (completeCheckout ctx sid w))) = profiles (db w) /\
  books (db (snd (completeCheckout ctx sid w))) = books (db w) /\
  messages (db (snd (completeCheckout ctx sid w))) = messages (db w) /\
  (exists new,
      orders (db (snd (completeCheckout ctx sid w))) = orders (db w) ++ new /\
      Forall (fun row => auth_user ctx = Some (Order.buyer_id row) /\
                         Order.status row = "completed") new) /\
  Forall2 sold_or_kept (listings (db w)) (listings (db (snd (completeCheckout ctx sid w)))) /\
  (exists keep,
      cart_items (db (snd (completeCheckout ctx sid w)))
      = filter keep (cart_items (db w))).
Proof.
  assert (Hsame : stripe w = stripe w /\
                  profiles (db w) = profiles (db w) /\
                  books (db w) = books (db w) /\
                  messages (db w) = messages (db w) /\
                  (exists new,
                      orders (db w) = orders (db w) ++ new /\
                      Forall (fun row => auth_user ctx = Some (Order.buyer_id row) /\
                                         Order.status row = "completed") new) /\
                  Forall2 sold_or_kept (listings (db w)) (listings (db w)) /\
                  (exists keep, cart_items (db w) = filter keep (cart_items (db w)))).
  { repeat split.
    - exists []. split; [now rewrite app_nil_r | constructor].
    - apply sold_or_kept_refl.
    - exists (fun _ => true). now rewrite filter_true. }
  unfold completeCheckout, bind, getUser, ret, throw.
  destruct (auth_user ctx) as [uid|] eqn:Hu; [|exact Hsame].
  unfold stripe_sessions_retrieve.
  destruct (session_of sid w) as [session|]; [|exact Hsame].
  destruct (negb (Session.payment_status session =? "paid")); [exact Hsame|].
  unfold select_cart_items.
  destruct (cart_select_error ctx); cbn [error data]; [exact Hsame|].
  destruct (for_of _ _ w) as [o wl] eqn:Eloop.
  apply for_of_item_trace in Eloop.
  destruct Eloop as (Hst & Hp & Hb & Hc & Hm & new & lids & Ho & Hnew & Hl).
  assert (Hloop : stripe wl = stripe w /\
                  profiles (db wl) = profiles (db w) /\
                  books (db wl) = books (db w) /\
                  messages (db wl) = messages (db w) /\
                  (exists new,
                      orders (db wl) = orders (db w) ++ new /\
                      Forall (fun row => Some uid = Some (Order.buyer_id row) /\
                                         Order.status row = "completed") new) /\
                  Forall2 sold_or_kept (listings (db w)) (listings (db wl))).
  { repeat split; trivial.
    - exists new. split; [assumption|].
      eapply Forall_impl; [|exact Hnew]. intros row [-> Hrow]. now split.
    - rewrite Hl. apply sold_or_kept_sell. }
  destruct Hloop as (H1 & H2 & H3 & H4 & H5 & H6).
  destruct o as [[]|e]; cbn [snd].
  - unfold delete_cart_items.
    destruct (cart_delete_error ctx); cbn; repeat split; trivial.
    + exists (fun _ => true). now rewrite filter_true.
    + eexists. rewrite Hc. reflexivity.
  - repeat split; trivial. exists (fun _ => true). now rewrite filter_true.
Qed.

(** ** [completeCheckout]: failures partway *)

Lemma for_of_app {A} (xs ys : list A) body w :
  for_of (xs ++ ys) body w
  = match for_of xs body w with
    | (Returned _, w1) => for_of ys body w1
    | (Threw e, w1) => (Threw e, w1)
    end.
Proof.
  revert w. induction xs as [|x xs IH]; intros w; [reflexivity|].
  cbn [app for_of]. unfold bind. destruct (body x w) as [[[]|e] w0]; [apply IH | reflexivity].
Qed.

(** The loop runs to its end over rows whose listings exist and whose
    inserts the store accepts. *)
Lemma for_of_item_runs ctx uid session d rows ls :
  Forall2 (fun c l => find_listing d (CartRow.listing_id c) = Some l) rows ls ->
  Forall (fun row => order_insert_error ctx row = false)
    (map (fun cl => order_for uid session (fst cl) (snd cl)) (combine rows ls)) ->
  forall w,
  exists w1,
    for_of (map (embed_listing d) rows) (completeCheckout_item ctx uid session) w
    = (Returned tt, w1) /\
    orders (db w1)
    = orders (db w) ++ map (fun cl => order_for uid session (fst cl) (snd cl)) (combine rows ls) /\
    cart_items (db w1) = cart_items (db w) /\
    stripe w1 = stripe w.
Proof.
  induction 1 as [|c l rows ls Hl _ IH]; intros Hins w.
  - exists w. cbn. now rewrite app_nil_r.
  - cbn [map combine fst snd] in Hins. inversion Hins as [|? ? Hc Hrest]; subst.
    cbn [map for_of]. unfold bind at 1.
    unfold completeCheckout_item at 1. cbn [embed_listing CartItem.listings].
    rewrite Hl. unfold bind at 1, insert_order.
    change (order_row uid session (embed_listing d c)
              (CartItem.mkListings (Listing.price l) (Listing.seller_id l)
                 (find_book d (Listing.book_id l))))
      with (order_for uid session c l).
    rewrite Hc. cbn [error]. unfold bind at 1, update_listing_status, ret.
    destruct (listing_update_error ctx _);
      match goal with
      | |- context [for_of _ _ ?w0] => destruct (IH Hrest w0) as (w1 & Hrun & Ho & Hcart & Hst)
      end;
      exists w1; rewrite Hrun, Ho, Hcart, Hst; cbn; rewrite <- app_assoc; repeat split.
Qed.

(** X4. When [completeCheckout] throws, for whatever reason, the cart is
    as it was before the call. *)
Theorem completeCheckout_throw_keeps_cart ctx sid w e w' :
  completeCheckout ctx sid w = (Threw e, w') ->
  cart_items (db w') = cart_items (db w).
Proof.
  unfold completeCheckout, bind, getUser, ret, throw.
  destruct (auth_user ctx) as [uid|]; [|now intros [= _ <-]].
  unfold stripe_sessions_retrieve.
  destruct (session_of sid w) as [session|]; [|now intros [= _ <-]].
  destruct (negb (Session.payment_status session =? "paid")); [now intros [= _ <-]|].
  unfold select_cart_items.
  destruct (cart_select_error ctx); cbn [error data]; [now intros [= _ <-]|].
  destruct (for_of _ _ w) as [o wl] eqn:Eloop.
  apply for_of_item_frame in Eloop. destruct Eloop as (Hc & _).
  destruct o as [[]|e0]; [|now intros [= _ <-]].
  unfold delete_cart_items.
  destruct (cart_delete_error ctx); cbn; [|discriminate].
  now intros [= _ <-].
Qed.

Lemma completeCheckout_throw_keeps_cart_witness :
  cart_items (db w_failed) = cart_items (db w_paid).
Proof.
  apply (completeCheckout_throw_keeps_cart ctx_insert_L2_fails "cs_1" w_paid StoreWriteError).
  vm_compute. reflexivity.
Defined.

(** X5. When the insert of the order for one matched cart row comes back
    with an [error], after the inserts for the rows before it were
    accepted, [completeCheckout] throws that error; the orders of the
    rows before it stay written, no order is written for the row or the
    rows after it, and the cart is not cleared. *)
Theorem completeCheckout_partial_failure ctx sid w uid session pre c post ls l :
  auth_user ctx = Some uid ->
  session_of sid w = Some session ->
  Session.payment_status session = "paid" ->
  cart_select_error ctx = false ->
  cart_rows_of (metadata_cart_item_ids session) uid (db w) = pre ++ c :: post ->
  Forall2 (fun c l => find_listing (db w) (CartRow.listing_id c) = Some l) pre ls ->
  Forall (fun row => order_insert_error ctx row = false)
    (map (fun cl => order_for uid session (fst cl) (snd cl)) (combine pre ls)) ->
  find_listing (db w) (CartRow.listing_id c) = Some l ->
  order_insert_error ctx (order_for uid session c l) = true ->
  exists w',
    completeCheckout ctx sid w = (Threw StoreWriteError, w') /\
    orders (db w')
    = orders (db w) ++ map (fun cl => order_for uid session (fst cl) (snd cl)) (combine pre ls) /\
    cart_items (db w') = cart_items (db w).
Proof.
  intros Hu Hs Hp Hsel Hrows Hpre Hins Hl Hfail.
  unfold completeCheckout, bind, getUser, ret, throw, stripe_sessions_retrieve.
  rewrite Hu, Hs, Hp, String.eqb_refl. cbn [negb].
  unfold select_cart_items. rewrite Hsel. cbn [error data].
  rewrite Hrows, map_app, for_of_app.
  destruct (for_of_item_runs ctx uid session (db w) pre ls Hpre Hins w)
    as (w1 & Hrun & Ho & Hc & _).
  rewrite Hrun. cbn [map for_of]. unfold bind.
  unfold completeCheckout_item at 1. cbn [embed_listing CartItem.listings].
  rewrite Hl. unfold insert_order.
  change (order_row uid session (embed_listing (db w) c)
            (CartItem.mkListings (Listing.price l) (Listing.seller_id l)
               (find_book (db w) (Listing.book_id l))))
    with (order_for uid session c l).
  rewrite Hfail. cbn. exists w1. repeat split; assumption.
Qed.

Lemma completeCheckout_partial_failure_witness :
  exists w',
    completeCheckout ctx_insert_L2_fails "cs_1" w_paid = (Threw StoreWriteError, w') /\
    orders (db w') = [Order.mk "buyer" "seller" "L1" 199 "completed" (Some "pay_1")] /\
    cart_items (db w') = cart_items (db w_paid).
Proof.
  apply (completeCheckout_partial_failure ctx_insert_L2_fails "cs_1" w_paid "buyer"
           (Session.mk "cs_1" "cs_1_secret" "embedded" "never" "payment"
              (Session.line_items session_1) (Session.metadata session_1)
              "paid" (Some "pay_1"))
           [CartRow.mk "c1" "buyer" "L1" 1] (CartRow.mk "c2" "buyer" "L2" 3) []
           [Listing.mk "L1" "seller" "B1" 199 "available"]
           (Listing.mk "L2" "seller" "B2" 350 "available"));
    try reflexivity.
  - repeat constructor.
  - repeat constructor.
Defined.

(** ** From [createCheckoutSession] to [completeCheckout] *)






(** ** No look at the listing's status *)

Lemma embed_listing_restatus f w c :
  embed_listing (db (restatus f w)) c = embed_listing (db w) c.
Proof.
  unfold embed_listing, find_listing, find_book, restatus. cbn [db listings books set_listings].
  assert (Hfind : find (fun l => Listing.id l =? CartRow.listing_id c)
                    (map (fun l => with_status (f l) l) (listings (db w)))
                  = option_map (fun l => with_status (f l) l)
                      (find (fun l => Listing.id l =? CartRow.listing_id c) (listings (db w)))).
  { induction (listings (db w)) as [|l ls IH]; [reflexivity|].
    cbn. destruct (Listing.id l =? CartRow.listing_id c); [reflexivity | exact IH]. }
  rewrite Hfind. destruct (find _ (listings (db w))); reflexivity.
Qed.

Lemma embedded_restatus f ids uid w :
  map (embed_listing (db (restatus f w))) (cart_rows_of ids uid (db (restatus f w)))
  = map (embed_listing (db w)) (cart_rows_of ids uid (db w)).
Proof.
  change (cart_rows_of ids uid (db (restatus f w))) with (cart_rows_of ids uid (db w)).
  apply map_ext. intros c. apply embed_listing_restatus.
Qed.

Lemma failing_listing_update_same ctx :
  failing_listing_update (listing_update_error ctx) ctx = ctx.
Proof. destruct ctx. reflexivity. Qed.

(** X7. Neither action looks at the status of a listing.  Whatever the
    statuses are replaced with ("sold" and "removed" included),
    [createCheckoutSession] has the same outcome and creates the same
    session, and [completeCheckout] has the same outcome and writes the
    same orders and the same cart. *)
Theorem checkout_ignores_listing_status ctx f w :
  (forall ids,
      createCheckoutSession ctx ids (restatus f w)
      = (fst (createCheckoutSession ctx ids w),
         restatus f (snd (createCheckoutSession ctx ids w)))) /\
  (forall sid,
      fst (completeCheckout ctx sid (restatus f w)) = fst (completeCheckout ctx sid w) /\
      orders (db (snd (completeCheckout ctx sid (restatus f w))))
      = orders (db (snd (completeCheckout ctx sid w))) /\
      cart_items (db (snd (completeCheckout ctx sid (restatus f w))))
      = cart_items (db (snd (completeCheckout ctx sid w)))).
Proof.
  split.
  - intros ids. unfold createCheckoutSession, bind, getUser, ret, throw.
    destruct (auth_user ctx) as [uid|]; [|reflexivity].
    unfold select_cart_items.
    destruct (cart_select_error ctx); [reflexivity|]. cbn [error data].
    rewrite embedded_restatus.
    destruct (map (embed_listing (db w)) (cart_rows_of ids uid (db w))) as [|item items];
      [reflexivity|].
    destruct (lineItems_of (item :: items)); [|reflexivity].
    unfold stripe_sessions_create.
    destruct (stripe_create_error ctx); reflexivity.
  - intros sid.
    assert (Hsame : same_but_listings (restatus f w) w) by (repeat split).
    assert (Hgoal : fst (completeCheckout ctx sid (restatus f w))
                    = fst (completeCheckout ctx sid w) /\
                    same_but_listings (snd (completeCheckout ctx sid (restatus f w)))
                      (snd (completeCheckout ctx sid w))).
    { unfold completeCheckout, bind, getUser, ret, throw.
      destruct (auth_user ctx) as [uid|]; [|split; [reflexivity | exact Hsame]].
      unfold stripe_sessions_retrieve.
      change (session_of sid (restatus f w)) with (session_of sid w).
      destruct (session_of sid w) as [session|]; [|split; [reflexivity | exact Hsame]].
      destruct (negb (Session.payment_status session =? "paid"));
        [split; [reflexivity | exact Hsame]|].
      unfold select_cart_items.
      destruct (cart_select_error ctx); cbn [error data];
        [split; [reflexivity | exact Hsame]|].
      rewrite embedded_restatus.
      destruct (for_of_item_listing_updates_unobserved ctx (listing_update_error ctx)
                  uid session
                  (map (embed_listing (db w))
                     (cart_rows_of (metadata_cart_item_ids session) uid (db w)))
                  (restatus f w) w Hsame) as [Hfst Hsnd].
      rewrite failing_listing_update_same in Hfst, Hsnd.
      destruct (for_of _ _ (restatus f w)) as [o1 w1].
      destruct (for_of _ _ w) as [o2 w2].
      cbn [fst snd] in Hfst, Hsnd. subst o2.
      destruct o1 as [[]|e]; [|split; [reflexivity | exact Hsnd]].
      unfold delete_cart_items.
      destruct Hsnd as (Hst & Hp & Hb & Hc & Ho & Hm).
      destruct (cart_delete_error ctx); unfold same_but_listings; cbn;
        repeat split; congruence. }
    destruct Hgoal as (Hfst & _ & _ & _ & Hc & Ho & _). repeat split; assumption.
Qed.

(** * Properties of the checkout page *)

Lemma session_of_none sid w :
  (forall s, In s (stripe w) -> Session.id s <> sid) -> session_of sid w = None.
Proof.
  unfold session_of. induction (stripe w) as [|s ss IH]; intros H; [reflexivity|].
  cbn. assert (Hne : (Session.id s =? sid) = false).
  { apply String.eqb_neq. apply H. now left. }
  rewrite Hne. apply IH. intros s0 H0. apply H. now right.
Qed.

(** X8. [handleCheckout] keeps the client secret that
    [createCheckoutSession] returns as the page's [sessionId], and
    [handleCheckoutComplete] hands it to [completeCheckout] as the
    session id.  So when no session of the provider has the client secret
    as its id, completing never writes anything and never navigates to
    the orders; it alerts "Failed to complete checkout" (or does nothing,
    for an empty secret). *)
Theorem checkout_page_completes_with_client_secret ctx p w secret w1 :
  createCheckoutSession ctx (map CartItem.id (CheckoutPage.cartItems p)) w
  = (Returned secret, w1) ->
  CheckoutPage.handleCheckout ctx p w
  = (CheckoutPage.mk (CheckoutPage.cartItems p) (CheckoutPage.total p)
       (CheckoutPage.loading p) true (Some (stripe_client_secret ctx))
       (CheckoutPage.alerts p) (CheckoutPage.pushed p),
     w1) /\
  forall ctx2 w2,
    (forall s, In s (stripe w2) -> Session.id s <> stripe_client_secret ctx) ->
    let p1 := fst (CheckoutPage.handleCheckout ctx p w) in
    snd (CheckoutPage.handleCheckoutComplete ctx2 p1 w2) = w2 /\
    CheckoutPage.pushed (fst (CheckoutPage.handleCheckoutComplete ctx2 p1 w2))
    = CheckoutPage.pushed p /\
    (stripe_client_secret ctx <> "" ->
     CheckoutPage.alerts (fst (CheckoutPage.handleCheckoutComplete ctx2 p1 w2))
     = CheckoutPage.alerts p ++ ["Failed to complete checkout"]).
Proof.
  intros Hcreate.
  assert (Hsecret : secret = stripe_client_secret ctx).
  { apply createCheckoutSession_returned in Hcreate.
    destruct Hcreate as (_ & _ & _ & _ & _ & ->). reflexivity. }
  subst secret.
  assert (Hpage : CheckoutPage.handleCheckout ctx p w
                  = (CheckoutPage.mk (CheckoutPage.cartItems p) (CheckoutPage.total p)
                       (CheckoutPage.loading p) true (Some (stripe_client_secret ctx))
                       (CheckoutPage.alerts p) (CheckoutPage.pushed p),
                     w1)).
  { unfold CheckoutPage.handleCheckout. now rewrite Hcreate. }
  split; [exact Hpage|].
  intros ctx2 w2 Hids p1. subst p1. rewrite Hpage. cbn [fst].
  unfold CheckoutPage.handleCheckoutComplete. cbn [CheckoutPage.sessionId truthy str_of].
  destruct (String.eqb_spec (stripe_client_secret ctx) "") as [Hempty|Hfull]; cbn [negb].
  - repeat split. intros H. contradiction.
  - assert (Hthrow : exists e,
               completeCheckout ctx2 (stripe_client_secret ctx) w2 = (Threw e, w2)).
    { unfold completeCheckout, bind, getUser, ret, throw, stripe_sessions_retrieve.
      destruct (auth_user ctx2); [|eexists; reflexivity].
      rewrite (session_of_none _ _ Hids). eexists; reflexivity. }
    destruct Hthrow as [e ->]. repeat split.
Qed.

Lemma checkout_page_completes_with_client_secret_witness :
  snd (CheckoutPage.handleCheckoutComplete (healthy (Some "buyer")) page_paying w_paid)
  = w_paid /\
  CheckoutPage.pushed
    (fst (CheckoutPage.handleCheckoutComplete (healthy (Some "buyer")) page_paying w_paid))
  = [] /\
  CheckoutPage.alerts
    (fst (CheckoutPage.handleCheckoutComplete (healthy (Some "buyer")) page_paying w_paid))
  = ["Failed to complete checkout"].
Proof.
  destruct (checkout_page_completes_with_client_secret (healthy (Some "buyer"))
              page_loaded w0 "cs_1_secret" w_unpaid) as [_ Hcomplete].
  - vm_compute. reflexivity.
  - destruct (Hcomplete (healthy (Some "buyer")) w_paid) as (Hw & Hpushed & Halerts).
    + intros s [<-|[]]. discriminate.
    + split; [exact Hw | split; [exact Hpushed | apply Halerts; discriminate]].
Defined.

(** ** The total the page shows and the amount charged *)

Lemma reduce_price_embedded add d rows ls :
  Forall2 (fun c l => find_listing d (CartRow.listing_id c) = Some l) rows ls ->
  forall sum,
    CheckoutPage.reduce_price add sum (map (embed_listing d) rows)
    = Returned (fold_left (fun s l => add s (Listing.price l)) ls sum).
Proof.
  induction 1 as [|c l rows ls Hl _ IH]; intros sum; [reflexivity|].
  cbn [map CheckoutPage.reduce_price embed_listing CartItem.listings].
  rewrite Hl. cbn [CartItem.price fold_left]. apply IH.
Qed.

Lemma own_rows_matched uid d :
  cart_rows_of
    (map CartRow.id (filter (fun c => CartRow.buyer_id c =? uid) (cart_items d))) uid d
  = filter (fun c => CartRow.buyer_id c =? uid) (cart_items d).
Proof.
  unfold cart_rows_of. apply filter_ext_in. intros c Hin.
  destruct (CartRow.buyer_id c =? uid) eqn:E; [|apply andb_false_r].
  rewrite andb_true_r. apply mem_In. apply in_map. apply filter_In. now split.
Qed.

(** X9. On the checkout page, whatever the addition of numbers gives: if
    [handleCheckout], called on the cart [fetchCart] has loaded from the
    same store, goes through without alert, then the total the page
    shows and the session it created come from the same rows.  The total
    is the stored prices of the listings of the buyer's cart rows, added
    one after the other from 0, each once whatever the row's quantity;
    the session has one line item for each of these listings, in the
    same order, with quantity 1 and the price in paise as its amount. *)
Theorem checkout_page_total_over_charged_rows add ctx p w uid p2 w1 :
  auth_user ctx = Some uid ->
  cart_select_error ctx = false ->
  CheckoutPage.handleCheckout ctx (fst (CheckoutPage.fetchCart add ctx p w)) w = (p2, w1) ->
  CheckoutPage.alerts p2 = CheckoutPage.alerts p ->
  exists session ls,
    stripe w1 = stripe w ++ [session] /\
    CheckoutPage.sessionId p2 = Some (Session.client_secret session) /\
    Forall2 (fun c l => find_listing (db w) (CartRow.listing_id c) = Some l)
      (filter (fun c => CartRow.buyer_id c =? uid) (cart_items (db w))) ls /\
    CheckoutPage.total p2
    = fold_left (fun sum l => add sum (Listing.price l)) ls 0 /\
    Forall2 (fun l li =>
               LineItem.quantity li = 1%Z /\
               LineItem.unit_amount li = Math_round (Listing.price l * 100))
      ls (Session.line_items session).
Proof.
  intros Hu Hsel Hcheckout Halerts.
  set (rows := filter (fun c => CartRow.buyer_id c =? uid) (cart_items (db w))).
  assert (Hitems : CheckoutPage.cartItems (fst (CheckoutPage.fetchCart add ctx p w))
                   = map (embed_listing (db w)) rows).
  { unfold CheckoutPage.fetchCart, select_cart_of_buyer. rewrite Hu, Hsel.
    cbn [error data]. destruct (CheckoutPage.reduce_price add 0 _); reflexivity. }
  assert (Hpalerts : CheckoutPage.alerts (fst (CheckoutPage.fetchCart add ctx p w))
                     = CheckoutPage.alerts p).
  { unfold CheckoutPage.fetchCart, select_cart_of_buyer. rewrite Hu, Hsel.
    cbn [error data]. destruct (CheckoutPage.reduce_price add 0 _); reflexivity. }
  unfold CheckoutPage.handleCheckout in Hcheckout.
  destruct (createCheckoutSession ctx _ w) as [[secret|e] w'] eqn:Hcreate;
    injection Hcheckout as <- <-.
  2:{ cbn [CheckoutPage.alerts] in Halerts. rewrite Hpalerts in Halerts.
      apply (f_equal (@List.length string)) in Halerts.
      rewrite length_app in Halerts. cbn in Halerts. lia. }
  rewrite Hitems, map_map in Hcreate. cbn [embed_listing CartItem.id] in Hcreate.
  apply createCheckoutSession_returned in Hcreate.
  destruct Hcreate as (uid' & items & Hu' & Hl & -> & ->).
  assert (uid' = uid) by congruence. subst uid'.
  fold rows in Hl. unfold rows in Hl at 1. rewrite own_rows_matched in Hl. fold rows in Hl.
  apply lineItems_of_embedded in Hl.
  assert (Hls : exists ls,
             Forall2 (fun c l => find_listing (db w) (CartRow.listing_id c) = Some l) rows ls /\
             Forall2 (fun l li =>
                        LineItem.quantity li = 1%Z /\
                        LineItem.unit_amount li = Math_round (Listing.price l * 100))
               ls items).
  { clear - Hl. induction Hl as [|c li rs lis (l & b & Hfl & _ & ->) _ (ls & H1 & H2)].
    - exists []. split; constructor.
    - exists (l :: ls). split; constructor; try assumption. split; reflexivity. }
  destruct Hls as (ls & Hfind & Hcharged).
  assert (Htotal : CheckoutPage.total (fst (CheckoutPage.fetchCart add ctx p w))
                   = fold_left (fun s l => add s (Listing.price l)) ls 0).
  { unfold CheckoutPage.fetchCart, select_cart_of_buyer. rewrite Hu, Hsel.
    cbn [error data]. fold rows.
    rewrite (reduce_price_embedded _ _ _ _ Hfind 0). reflexivity. }
  eexists _, ls. split; [reflexivity|]. split; [reflexivity|].
  split; [exact Hfind|]. split; [exact Htotal | exact Hcharged].
Qed.

Lemma checkout_page_total_over_charged_rows_witness :
  exists session ls,
    stripe w_unpaid = stripe w0 ++ [session] /\
    CheckoutPage.sessionId page_paying = Some (Session.client_secret session) /\
    Forall2 (fun c l => find_listing (db w0) (CartRow.listing_id c) = Some l)
      (filter (fun c => CartRow.buyer_id c =? "buyer") (cart_items (db w0))) ls /\
    CheckoutPage.total page_paying
    = fold_left (fun sum l => Qplus sum (Listing.price l)) ls 0 /\
    Forall2 (fun l li =>
               LineItem.quantity li = 1%Z /\
               LineItem.unit_amount li = Math_round (Listing.price l * 100))
      ls (Session.line_items session).
Proof.
  apply (checkout_page_total_over_charged_rows Qplus (healthy (Some "buyer"))
           CheckoutPage.initial w0 "buyer" page_paying w_unpaid).
  - reflexivity.
  - reflexivity.
  - vm_compute. reflexivity.
  - reflexivity.
Defined.

(** * Properties of the cart page *)

Lemma reduce_total_returns items : forall sum,
  (exists x, CartPage.reduce_total sum items = Returned x) <->
  Forall (fun it => CartPage.listings it <> None) items.
Proof.
  induction items as [|it items IH]; intros sum; cbn.
  - split; [constructor | eauto].
  - destruct (CartPage.listings it) as [l|] eqn:E.
    + rewrite IH. split.
      * intros H. constructor; [congruence | assumption].
      * intros H. now inversion H.
    + split.
      * intros [x Hx]. discriminate.
      * intros H. inversion H; subst. congruence.
Qed.

Lemma show_items_in_step uid items p w :
  items = CartPage.view uid (db w) ->
  Forall (fun it => CartPage.listings it <> None) items ->
  cart_page_in_step uid (CartPage.show_items items p) w.
Proof.
  intros Hitems Hlisted. unfold CartPage.show_items.
  apply (reduce_total_returns items 0) in Hlisted. destruct Hlisted as [x Hx].
  rewrite Hx. split; [exact Hitems | exact Hx].
Qed.

Lemma filter_map_commute {A} (p : A -> bool) (f : A -> A) l :
  (forall x, p (f x) = p x) -> filter p (map f l) = map f (filter p l).
Proof.
  intros H. induction l as [|x l IH]; [reflexivity|].
  cbn. rewrite H. destruct (p x); cbn; now rewrite IH.
Qed.

(** X10. The cart page stays in step with the store: when its items are
    what its select would give for the buyer and its total is the total
    of its items, the same holds after [handleUpdateQuantity] and after
    [handleRemoveItem], whether the store performs the write or comes
    back with an [error]. *)
Theorem cart_page_stays_in_step ctx uid cid q p w :
  cart_page_in_step uid p w ->
  cart_page_in_step uid
    (fst (CartPage.handleUpdateQuantity ctx cid q p w))
    (snd (CartPage.handleUpdateQuantity ctx cid q p w)) /\
  cart_page_in_step uid
    (fst (CartPage.handleRemoveItem ctx cid p w))
    (snd (CartPage.handleRemoveItem ctx cid p w)).
Proof.
  intros [Hitems Htotal].
  assert (Hlisted : Forall (fun it => CartPage.listings it <> None) (CartPage.cartItems p)).
  { apply (reduce_total_returns _ 0). eauto. }
  split.
  - unfold CartPage.handleUpdateQuantity.
    destruct (q <? 1)%Z; [split; assumption|].
    unfold update_cart_quantity.
    destruct (cart_update_error ctx); cbn [error fst snd]; [split; assumption|].
    apply show_items_in_step.
    + cbn [CartPage.set_updatingId CartPage.cartItems]. rewrite Hitems.
      unfold CartPage.view. cbn [db cart_items set_cart_items].
      rewrite (filter_map_commute (fun c => CartRow.buyer_id c =? uid))
        by (intros c; destruct (CartRow.id c =? cid); reflexivity).
      rewrite !map_map. apply map_ext. intros c.
      unfold CartPage.embed. cbn [CartPage.id].
      destruct (CartRow.id c =? cid); reflexivity.
    + cbn [CartPage.set_updatingId CartPage.cartItems].
      apply Forall_map. eapply Forall_impl; [|exact Hlisted].
      intros it Hit. destruct (CartPage.id it =? cid); exact Hit.
  - unfold CartPage.handleRemoveItem, delete_cart_items.
    destruct (cart_delete_error ctx); cbn [error fst snd]; [split; assumption|].
    apply show_items_in_step.
    + rewrite Hitems. unfold CartPage.view. cbn [db cart_items set_cart_items].
      induction (cart_items (db w)) as [|c cs IH]; [reflexivity|].
      cbn [filter mem existsb]. rewrite orb_false_r, (String.eqb_sym (CartRow.id c) cid).
      destruct (cid =? CartRow.id c) eqn:E1, (CartRow.buyer_id c =? uid) eqn:E2;
        cbn [negb filter map andb]; rewrite ?E2; cbn [filter map CartPage.embed CartPage.id];
        rewrite ?(String.eqb_sym (CartRow.id c) cid), ?E1; cbn [negb]; rewrite ?IH;
        reflexivity.
    + clear - Hlisted. induction Hlisted as [|it its Hit _ IH]; [constructor|].
      cbn. destruct (negb (CartPage.id it =? cid)); [constructor|]; assumption.
Qed.

Lemma cart_page_stays_in_step_witness :
  cart_page_in_step "buyer"
    (fst (CartPage.handleUpdateQuantity (healthy (Some "buyer")) "c1" 5 cart_page_loaded w0))
    (snd (CartPage.handleUpdateQuantity (healthy (Some "buyer")) "c1" 5 cart_page_loaded w0)) /\
  cart_page_in_step "buyer"
    (fst (CartPage.handleRemoveItem (healthy (Some "buyer")) "c1" cart_page_loaded w0))
    (snd (CartPage.handleRemoveItem (healthy (Some "buyer")) "c1" cart_page_loaded w0)).
Proof.
  apply cart_page_stays_in_step.
  split; vm_compute; reflexivity.
Defined.

Lemma requantified_refl cid q cs : Forall2 (requantified cid q) cs cs.
Proof.
  induction cs; constructor; [|assumption].
  unfold requantified. repeat split. now left.
Qed.

(** X11. [handleUpdateQuantity] keeps every cart row in place and changes
    at most the quantity of the rows with the given id, to the new
    quantity and only if that is at least 1; it writes no other table.
    So when every stored quantity is at least 1 before, it is after. *)
Theorem handleUpdateQuantity_keeps_quantities_positive ctx cid q p w :
  Forall (fun c => (1 <= CartRow.quantity c)%Z) (cart_items (db w)) ->
  let w' := snd (CartPage.handleUpdateQuantity ctx cid q p w) in
  Forall2 (requantified cid q) (cart_items (db w)) (cart_items (db w')) /\
  Forall (fun c => (1 <= CartRow.quantity c)%Z) (cart_items (db w')) /\
  listings (db w') = listings (db w) /\
  orders (db w') = orders (db w) /\
  stripe w' = stripe w.
Proof.
  intros Hpos w'. subst w'. unfold CartPage.handleUpdateQuantity.
  destruct (Z.ltb_spec q 1) as [Hlt|Hge];
    [cbn [snd]; repeat split; trivial; apply requantified_refl|].
  unfold update_cart_quantity.
  destruct (cart_update_error ctx); cbn [error snd];
    [repeat split; trivial; apply requantified_refl|].
  cbn [db cart_items set_cart_items listings orders stripe]. repeat split.
  - clear Hpos. induction (cart_items (db w)) as [|c cs IH]; constructor; [|exact IH].
    unfold requantified. destruct (String.eqb_spec (CartRow.id c) cid); cbn.
    + repeat split. right. repeat split; assumption.
    + repeat split. now left.
  - induction Hpos as [|c cs Hc _ IH]; constructor; [|exact IH].
    destruct (CartRow.id c =? cid); [exact Hge | exact Hc].
Qed.

Lemma handleUpdateQuantity_keeps_quantities_positive_witness :
  Forall (fun c => (1 <= CartRow.quantity c)%Z)
    (cart_items
       (db (snd (CartPage.handleUpdateQuantity (healthy (Some "buyer")) "c2" 0
                   cart_page_loaded w0)))).
Proof.
  apply (handleUpdateQuantity_keeps_quantities_positive (healthy (Some "buyer")) "c2" 0
           cart_page_loaded w0).
  repeat constructor; cbn; lia.
Defined.

(** * More properties of the messages route *)

(** X12. For a signed-in caller whose select the store performs, [GET]
    with an [otherUserId = X] that holds no filter syntax (letters,
    digits, hyphens and underscores only, as the text of a uuid does)
    answers 200 with exactly the stored messages exchanged between the
    caller and [X], as they were before the marking, ordered on
    [created_at] ascending; this holds whether or not the update comes
    back with an [error]. *)
Theorem thread_oldest_first ctx uid X w :
  auth_user ctx = Some uid ->
  X <> "" ->
  plain_text X = true ->
  messages_select_error ctx = false ->
  exists thread,
    fst (GET ctx (Some X) w) = mkResponse (JsonMessages thread) 200 /\
    Permutation (filter (between uid X) (messages (db w))) thread /\
    StronglySorted
      (fun a b => (Message.created_at a <= Message.created_at b)%Z) thread.
Proof.
  intros Hu HX Hplain Hs.
  exists (order_created_at true (filter (between uid X) (messages (db w)))).
  assert (Hrows : thread_rows ctx uid X = between uid X)
    by (unfold thread_rows; now rewrite Hplain).
  split; [|split].
  - destruct (messages_update_error ctx) eqn:Hup.
    + now rewrite (GET_thread_update_error ctx uid X w Hu HX Hs Hup), Hrows.
    + now rewrite (GET_thread ctx uid X w Hu HX Hs Hup), Hrows.
  - apply order_created_at_perm.
  - eapply StronglySorted_agree; [|apply order_created_at_sorted].
    intros a b _ _ H. unfold precedes, created_before in H. lia.
Qed.

Lemma thread_oldest_first_witness :
  exists thread,
    fst (GET (healthy (Some "me")) (Some "A") w_chat) = mkResponse (JsonMessages thread) 200 /\
    Permutation (filter (between "me" "A") (messages (db w_chat))) thread /\
    StronglySorted
      (fun a b => (Message.created_at a <= Message.created_at b)%Z) thread.
Proof.
  apply thread_oldest_first.
  - reflexivity.
  - discriminate.
  - reflexivity.
  - reflexivity.
Defined.

Lemma read_or_kept_refl caller other ms : Forall2 (read_or_kept caller other) ms ms.
Proof. induction ms; constructor; [now left | assumption]. Qed.

(** X13. Whatever the request and whatever the store answers, [GET]
    leaves every table but [messages] and the provider as they were, and
    keeps every message row in place; a row is left as it is, or it is a
    message from the requested counterpart to the caller, and only its
    [read] flag is set. *)
Theorem GET_only_marks_read ctx o w :
  stripe (snd (GET ctx o w)) = stripe w /\
  profiles (db (snd (GET ctx o w))) = profiles (db w) /\
  books (db (snd (GET ctx o w))) = books (db w) /\
  listings (db (snd (GET ctx o w))) = listings (db w) /\
  cart_items (db (snd (GET ctx o w))) = cart_items (db w) /\
  orders (db (snd (GET ctx o w))) = orders (db w) /\
  Forall2 (read_or_kept (auth_user ctx) o)
    (messages (db w)) (messages (db (snd (GET ctx o w)))).
Proof.
  assert (Hsame : stripe w = stripe w /\
                  profiles (db w) = profiles (db w) /\
                  books (db w) = books (db w) /\
                  listings (db w) = listings (db w) /\
                  cart_items (db w) = cart_items (db w) /\
                  orders (db w) = orders (db w) /\
                  Forall2 (read_or_kept (auth_user ctx) o) (messages (db w)) (messages (db w)))
    by (repeat split; apply read_or_kept_refl).
  unfold GET, catch500, GET_try, bind, getUser, ret, throw.
  destruct (auth_user ctx) as [uid|] eqn:Hu; [|exact Hsame].
  destruct o as [X|]; cbn [truthy str_of]; cbn [negb].
  - destruct (String.eqb_spec X "") as [->|HX]; cbn [negb];
      unfold select_messages; destruct (messages_select_error ctx); cbn [error data];
      try exact Hsame.
    + unfold select_profiles. destruct (profiles_select_error ctx); exact Hsame.
    + unfold update_messages_read.
      destruct (messages_update_error ctx); cbn; [exact Hsame|].
      repeat split. clear Hsame.
      induction (messages (db w)) as [|m ms IH]; cbn [map]; constructor; [|exact IH].
      destruct (String.eqb_spec (Message.receiver_id m) uid) as [<-|];
        destruct (String.eqb_spec (Message.sender_id m) X) as [<-|]; cbn;
        try (now left).
      right. repeat split.
  - unfold select_messages. destruct (messages_select_error ctx); cbn [error data];
      [exact Hsame|].
    unfold select_profiles. destruct (profiles_select_error ctx); exact Hsame.
Qed.

(** X14. Whatever the request and whatever the store answers, [POST]
    either answers 200 having appended exactly one row to [messages],
    whose sender is the signed-in caller, whose receiver and content are
    the non-empty ones of the request and whose [read] is false, or
    answers another status and leaves the whole store as it was. *)
Theorem POST_appends_own_message_or_nothing ctx req w :
  (exists uid row,
      auth_user ctx = Some uid /\
      POST ctx req w
      = (mkResponse (JsonMessage row) 200,
         mkWorld (set_messages (db w) (messages (db w) ++ [row])) (stripe w)) /\
      Message.sender_id row = uid /\
      receiverId req = Some (Message.receiver_id row) /\
      Message.receiver_id row <> "" /\
      content req = Some (Message.content row) /\
      Message.content row <> "" /\
      Message.read row = false) \/
  (status (fst (POST ctx req w)) <> 200%nat /\ snd (POST ctx req w) = w).
Proof.
  unfold POST, catch500, POST_try, bind, getUser, ret, throw.
  destruct (auth_user ctx) as [uid|]; [|right; split; [discriminate | reflexivity]].
  destruct (receiverId req) as [r|] eqn:Hr; cbn [truthy negb orb];
    [|right; split; [discriminate | reflexivity]].
  destruct (String.eqb_spec r "") as [->|Hrne]; cbn [negb orb];
    [right; split; [discriminate | reflexivity]|].
  destruct (content req) as [c|] eqn:Hc; cbn [truthy negb];
    [|right; split; [discriminate | reflexivity]].
  destruct (String.eqb_spec c "") as [->|Hcne]; cbn [negb];
    [right; split; [discriminate | reflexivity]|].
  unfold insert_message.
  destruct (message_insert_error ctx); cbn [error data str_of];
    [right; split; [discriminate | reflexivity]|].
  left. eexists uid, _. split; [reflexivity|]. split; [reflexivity|].
  cbn. repeat split; assumption.
Qed.

(** ** The unread counts add up *)

Lemma list_sum_map_add {A} (a b : A -> nat) l :
  list_sum (map (fun x => a x + b x)%nat l)
  = (list_sum (map a l) + list_sum (map b l))%nat.
Proof.
  unfold list_sum. induction l as [|x l IH]; [reflexivity|].
  cbn [map fold_right]. rewrite IH. lia.
Qed.

Lemma list_sum_cons (x : nat) l : list_sum (x :: l) = (x + list_sum l)%nat.
Proof. reflexivity. Qed.

Lemma list_sum_one_key (x : string) (n : nat) K :
  NoDup K -> In x K ->
  list_sum (map (fun k => if x =? k then n else 0%nat) K) = n.
Proof.
  induction 1 as [|k K Hnin _ IH]; [contradiction|].
  cbn [map]. rewrite list_sum_cons. intros [->|Hin].
  - rewrite String.eqb_refl.
    assert (Hz : list_sum (map (fun k => if x =? k then n else 0%nat) K) = 0%nat).
    { clear IH. induction K as [|k K IH]; [reflexivity|].
      cbn [map]. rewrite list_sum_cons. destruct (String.eqb_spec x k) as [->|_].
      - exfalso. apply Hnin. now left.
      - apply IH. intros H. apply Hnin. now right. }
    rewrite Hz. lia.
  - destruct (String.eqb_spec x k) as [->|_]; [contradiction|].
    now rewrite IH.
Qed.

(** Counting by key: the counts over the keys add up to the count over
    all the rows. *)
Lemma count_by_key {A} (key : A -> string) (p : A -> bool) K rows :
  NoDup K ->
  (forall m, In m rows -> In (key m) K) ->
  list_sum (map (fun k => List.length (filter p (filter (fun m => key m =? k) rows))) K)
  = List.length (filter p rows).
Proof.
  intros Hnd. induction rows as [|m rows IH]; intros Hkeys.
  - cbn [filter List.length]. clear. induction K as [|k K IH]; [reflexivity|].
    cbn [map]. rewrite list_sum_cons. exact IH.
  - transitivity ((if p m then 1 else 0) + List.length (filter p rows))%nat.
    + rewrite <- IH by (intros m0 H0; apply Hkeys; now right).
      rewrite <- (list_sum_one_key (key m) (if p m then 1 else 0)%nat K Hnd)
        by (apply Hkeys; now left).
      rewrite <- list_sum_map_add. f_equal. apply map_ext. intros k.
      cbn [filter]. destruct (key m =? k); cbn [filter]; destruct (p m); reflexivity.
    + cbn [filter]. destruct (p m); reflexivity.
Qed.

(** X15. In the conversation list [GET] answers, the [unreadCount]s add
    up to the number of stored messages received by the caller with
    [read] false: every unread message is counted in exactly one
    conversation. *)
Theorem unread_counts_add_up ctx uid o w L w1 :
  auth_user ctx = Some uid ->
  GET ctx o w = (mkResponse (JsonConversations L) 200, w1) ->
  list_sum (map Conversation.unreadCount L)
  = List.length (filter (unread_for uid) (messages (db w))).
Proof.
  intros Hu H. apply GET_conversations_inv in H.
  destruct H as (uid' & pm & Hu' & -> & _).
  assert (uid' = uid) by congruence. subst uid'.
  replace (map Conversation.unreadCount
             (map (conversation_of uid pm) (grouped uid (newest_rows uid w))))
    with (map (fun k =>
                 List.length
                   (filter (unread_for uid)
                      (filter (fun m => otherUser uid m =? k) (newest_rows uid w))))
            (first_seen uid (newest_rows uid w)))
    by (unfold grouped, keyed; rewrite !map_map; reflexivity).
  rewrite (count_by_key (otherUser uid) (unread_for uid)
             (first_seen uid (newest_rows uid w)) (newest_rows uid w)).
  - unfold newest_rows.
    rewrite <- (filter_length_perm _ _ _ (order_created_at_perm false _)).
    rewrite filter_and. f_equal. apply filter_ext. intros m.
    unfold unread_for, involves.
    destruct (Message.receiver_id m =? uid); [|reflexivity].
    now rewrite orb_true_r, andb_true_r.
  - apply first_seen_NoDup.
  - intros m Hm. apply first_seen_In. eauto.
Qed.

Lemma unread_counts_add_up_witness :
  list_sum
    (map Conversation.unreadCount
       (map (conversation_of "me" None) (group_messages "me" (newest_rows "me" w_chat))))
  = List.length (filter (unread_for "me") (messages (db w_chat))).
Proof.
  apply (unread_counts_add_up
           (mkCtx (Some "me") false false false (fun _ => false) (fun _ => false)
              false false false true false "cs_1" "cs_1_secret" "m_new" 100
              (fun _ => true) (fun _ _ => false))
           "me" None w_chat _ w_chat).
  - reflexivity.
  - vm_compute. reflexivity.
Defined.

(** ** The profiles of the counterparts *)

Lemma JsMap_get_set {V} k k' (v : V) m :
  JsMap.get k (JsMap.set k' v m) = if k' =? k then Some v else JsMap.get k m.
Proof.
  unfold JsMap.get. induction m as [|[k0 v0] m IH]; cbn [JsMap.set assoc].
  - reflexivity.
  - destruct (String.eqb_spec k0 k') as [->|Hne]; cbn [assoc].
    + destruct (k' =? k); reflexivity.
    + rewrite IH. destruct (String.eqb_spec k0 k) as [->|_]; [|reflexivity].
      destruct (String.eqb_spec k' k) as [->|_]; [contradiction | reflexivity].
Qed.

(** Looking a key up in the object built by [reduce]. *)
Lemma profileMap_lookup k ps : forall acc,
  match JsMap.get k (fold_left (fun acc p => JsMap.set (Profile.id p) p acc) ps acc) with
  | Some p => (In p ps /\ Profile.id p = k) \/ JsMap.get k acc = Some p
  | None => (forall p, In p ps -> Profile.id p <> k) /\ JsMap.get k acc = None
  end.
Proof.
  induction ps as [|p0 ps IH]; intros acc; cbn [fold_left].
  - destruct (JsMap.get k acc); [now right | split; [intros p [] | reflexivity]].
  - specialize (IH (JsMap.set (Profile.id p0) p0 acc)).
    destruct (JsMap.get k (fold_left _ ps _)) as [p|].
    + destruct IH as [[Hin Hid]|Hget]; [left; split; [now right | assumption]|].
      rewrite JsMap_get_set in Hget.
      destruct (String.eqb_spec (Profile.id p0) k) as [Hk|_].
      * injection Hget as <-. left. split; [now left | assumption].
      * now right.
    + destruct IH as [Hnone Hget]. rewrite JsMap_get_set in Hget.
      destruct (String.eqb_spec (Profile.id p0) k) as [Hk|Hk]; [discriminate|].
      split; [|assumption]. intros p [<-|Hin]; [assumption | now apply Hnone].
Qed.

Lemma GET_conversations_profiles ctx o w L w1 :
  GET ctx o w = (mkResponse (JsonConversations L) 200, w1) ->
  exists uid,
    auth_user ctx = Some uid /\
    L = map (conversation_of uid
               (profileMap_of
                  (if profiles_select_error ctx then None
                   else Some (filter
                                (fun p => profile_visible ctx p
                                          && mem (Profile.id p)
                                               (JsMap.keys (grouped uid (newest_rows uid w))))
                                (profiles (db w))))))
          (grouped uid (newest_rows uid w)).
Proof.
  unfold GET, catch500, GET_try, bind, getUser, ret. intros H.
  destruct (auth_user ctx) as [uid|]; [|discriminate].
  destruct (truthy o); cbn [negb] in H; unfold select_messages in H;
    destruct (messages_select_error ctx); cbn in H; try discriminate.
  - unfold update_messages_read in H.
    destruct (messages_update_error ctx); discriminate.
  - rewrite group_messages_grouped in H. unfold select_profiles in H.
    exists uid. split; [reflexivity|].
    destruct (profiles_select_error ctx); injection H as <- <-; reflexivity.
Qed.

(** X16. In the conversation list [GET] answers, for a counterpart whose
    id is the text of a uuid: when the profiles select comes back with an
    [error], the list is answered all the same and the conversation has
    no profile; otherwise its profile is a stored profile the caller may
    see whose id is the counterpart's, and it is missing only when the
    caller may see no stored profile with that id.  Under the policy of
    the repository's scripts, which lets a user see their own profile
    only, a conversation with anyone but the caller has no profile. *)
Theorem conversation_profiles ctx o w L w1 c :
  GET ctx o w = (mkResponse (JsonConversations L) 200, w1) ->
  In c L ->
  uuid_text (Conversation.userId c) = true ->
  (profiles_select_error ctx = true -> Conversation.profile c = None) /\
  (profiles_select_error ctx = false ->
   match Conversation.profile c with
   | Some p =>
       In p (profiles (db w)) /\ Profile.id p = Conversation.userId c /\
       profile_visible ctx p = true
   | None =>
       forall p, In p (profiles (db w)) -> Profile.id p = Conversation.userId c ->
                 profile_visible ctx p = false
   end) /\
  ((forall p, profile_visible ctx p = own_profile (auth_user ctx) p) ->
   auth_user ctx <> Some (Conversation.userId c) ->
   Conversation.profile c = None).
Proof.
  intros H Hc _. apply GET_conversations_profiles in H. destruct H as (uid & Hu & ->).
  apply in_map_iff in Hc. destruct Hc as ([k msgs] & <- & Hentry).
  cbn [conversation_of Conversation.profile Conversation.userId].
  assert (Hk : In k (JsMap.keys (grouped uid (newest_rows uid w)))).
  { unfold JsMap.keys. apply in_map_iff. exists (k, msgs). now split. }
  assert (Hsome : profiles_select_error ctx = false ->
            match
              match
                profileMap_of
                  (if profiles_select_error ctx then None
                   else Some (filter
                                (fun p => profile_visible ctx p
                                          && mem (Profile.id p)
                                               (JsMap.keys (grouped uid (newest_rows uid w))))
                                (profiles (db w))))
              with
              | Some pm => JsMap.get k pm
              | None => None
              end
            with
            | Some p =>
                In p (profiles (db w)) /\ Profile.id p = k /\ profile_visible ctx p = true
            | None =>
                forall p, In p (profiles (db w)) -> Profile.id p = k ->
                          profile_visible ctx p = false
            end).
  { intros ->. cbn [profileMap_of].
    pose proof (profileMap_lookup k
                  (filter (fun p => profile_visible ctx p
                                    && mem (Profile.id p)
                                         (JsMap.keys (grouped uid (newest_rows uid w))))
                     (profiles (db w))) []) as Hlook.
    destruct (JsMap.get k _) as [p|].
    - destruct Hlook as [[Hin Hid]|Hget]; [|discriminate].
      apply filter_In in Hin. destruct Hin as [Hin Hvis].
      apply andb_true_iff in Hvis. repeat split; [exact Hin | exact Hid | apply Hvis].
    - destruct Hlook as [Hnone _]. intros p Hin Hid.
      destruct (profile_visible ctx p) eqn:Hvis; [|reflexivity].
      exfalso. apply (Hnone p); [|exact Hid].
      apply filter_In. split; [exact Hin|]. rewrite Hvis. cbn [andb].
      apply mem_In. now rewrite Hid. }
  split; [intros ->; reflexivity|]. split; [exact Hsome|].
  intros Hown Hother.
  destruct (profiles_select_error ctx) eqn:He; [reflexivity|].
  specialize (Hsome eq_refl). cbn [profileMap_of] in *.
  destruct (JsMap.get k _) as [p|]; [|reflexivity].
  destruct Hsome as (_ & Hid & Hvis). rewrite Hown, Hu in Hvis. cbn [own_profile] in Hvis.
  apply String.eqb_eq in Hvis. exfalso. apply Hother. rewrite Hu. congruence.
Qed.

Lemma conversation_profiles_witness :
  (In (Profile.mk "A" (Some "Ann") None) (profiles (db w_chat)) /\
   Profile.id (Profile.mk "A" (Some "Ann") None) = Conversation.userId conversation_A /\
   profile_visible (healthy (Some "me")) (Profile.mk "A" (Some "Ann") None) = true) /\
  GET ctx_profiles_own None w_chat
  = (mkResponse
       (JsonConversations [without_profile conversation_A; without_profile conversation_B])
       200,
     w_chat) /\
  Conversation.profile (without_profile conversation_A) = None.
Proof.
  split; [|split].
  - refine (proj1 (proj2 (conversation_profiles (healthy (Some "me")) None w_chat
                            [conversation_A; conversation_B] w_chat conversation_A _ _ _))
              _).
    + vm_compute. reflexivity.
    + left. reflexivity.
    + reflexivity.
    + reflexivity.
  - vm_compute. reflexivity.
  - refine (proj2 (proj2 (conversation_profiles ctx_profiles_own None w_chat
                            [without_profile conversation_A; without_profile conversation_B]
                            w_chat (without_profile conversation_A) _ _ _))
              _ _).
    + vm_compute. reflexivity.
    + left. reflexivity.
    + reflexivity.
    + intros p. reflexivity.
    + discriminate.
Defined.

(** ** The buyer dashboard after a checkout *)

Lemma orders_of_checkout uid session rows ls old :
  filter (fun o => Order.buyer_id o =? uid)
    (old ++ map (fun cl => order_for uid session (fst cl) (snd cl)) (combine rows ls))
  = filter (fun o => Order.buyer_id o =? uid) old
    ++ map (fun cl => order_for uid session (fst cl) (snd cl)) (combine rows ls).
Proof.
  rewrite filter_app. f_equal.
  induction (combine rows ls) as [|cl cls IH]; [reflexivity|].
  cbn [map filter order_for Order.buyer_id]. rewrite String.eqb_refl, IH. reflexivity.
Qed.

Lemma no_pending_order_written uid session (cls : list (CartRow.t * Listing.t)) :
  filter (fun order => Order.status order =? "pending")
    (map (fun cl => order_for uid session (fst cl) (snd cl)) cls) = [].
Proof. induction cls as [|cl cls IH]; [reflexivity | exact IH]. Qed.

Lemma reduce_checkout_orders uid session (rows : list CartRow.t) (ls : list Listing.t)
    (R : CartRow.t -> Listing.t -> Prop) :
  Forall2 R rows ls ->
  forall sum,
    fold_left (fun sum order => sum + Order.total_amount order)
      (map (fun cl => order_for uid session (fst cl) (snd cl)) (combine rows ls)) sum
    = fold_left (fun sum l => sum + Listing.price l) ls sum.
Proof.
  induction 1 as [|c l rows ls _ _ IH]; intros sum; [reflexivity|].
  cbn [combine map fold_left]. rewrite IH. reflexivity.
Qed.

(** X17. After a checkout that returned, the figures the buyer dashboard
    computes for the buyer move as follows: the number of orders grows by
    the number of cart rows the session named, the number of pending
    orders stays what it was, and the amount spent is the former amount
    with the stored prices of the bought listings added one after the
    other. *)
Theorem dashboard_after_checkout ctx sid w r w' uid :
  completeCheckout ctx sid w = (Returned r, w') ->
  auth_user ctx = Some uid ->
  exists session ls,
    session_of sid w = Some session /\
    let rows := cart_rows_of (metadata_cart_item_ids session) uid (db w) in
    let before := BuyerDashboard.stats_of (Some (BuyerDashboard.orders_of uid (db w))) in
    let after := BuyerDashboard.stats_of (Some (BuyerDashboard.orders_of uid (db w'))) in
    Forall2 (fun c l => find_listing (db w) (CartRow.listing_id c) = Some l) rows ls /\
    BuyerDashboard.totalOrders after
      = (BuyerDashboard.totalOrders before + List.length rows)%nat /\
    BuyerDashboard.pendingOrders after = BuyerDashboard.pendingOrders before /\
    BuyerDashboard.totalSpent after
      = fold_left (fun sum l => sum + Listing.price l) ls
          (BuyerDashboard.totalSpent before).
Proof.
  intros H Hu. apply completeCheckout_effects in H.
  destruct H as (uid' & session & ls & Hu' & Hs & _ & HF & Ho & _).
  rewrite Hu in Hu'. injection Hu' as <-.
  exists session, ls. split; [exact Hs|]. cbn zeta. split; [exact HF|].
  unfold BuyerDashboard.stats_of, BuyerDashboard.orders_of.
  cbn [BuyerDashboard.totalOrders BuyerDashboard.pendingOrders BuyerDashboard.totalSpent].
  rewrite Ho, orders_of_checkout. repeat split.
  - rewrite length_app, length_map, length_combine.
    rewrite <- (Forall2_length HF), Nat.min_id. reflexivity.
  - rewrite filter_app, no_pending_order_written, app_nil_r. reflexivity.
  - rewrite fold_left_app. apply (reduce_checkout_orders _ _ _ _ _ HF).
Qed.

Lemma dashboard_after_checkout_witness :
  completeCheckout (healthy (Some "buyer")) "cs_1" w_paid
  = (Returned (mkSuccess true), w_done) /\
  BuyerDashboard.totalOrders
    (BuyerDashboard.stats_of (Some (BuyerDashboard.orders_of "buyer" (db w_done))))
  = (BuyerDashboard.totalOrders
       (BuyerDashboard.stats_of (Some (BuyerDashboard.orders_of "buyer" (db w_paid))))
     + 2)%nat /\
  BuyerDashboard.pendingOrders
    (BuyerDashboard.stats_of (Some (BuyerDashboard.orders_of "buyer" (db w_done))))
  = BuyerDashboard.pendingOrders
      (BuyerDashboard.stats_of (Some (BuyerDashboard.orders_of "buyer" (db w_paid)))).
Proof.
  assert (Hrun : completeCheckout (healthy (Some "buyer")) "cs_1" w_paid
                 = (Returned (mkSuccess true), w_done))
    by (vm_compute; reflexivity).
  split; [exact Hrun|].
  destruct (dashboard_after_checkout _ _ _ _ _ "buyer" Hrun eq_refl)
    as (session & ls & Hs & _ & Hn & Hp & _).
  vm_compute in Hs. injection Hs as <-. split; [exact Hn | exact Hp].
Defined.
